(** * Input shaping and inference invocation of the ONNX form apps

    Shallow embedding of [run_inference] and [main] of
    [Conjuagation_APP.py], [Conjuagation_APP_V2.py] and
    [GUI_Conjuagation.py].

    The Python code talks to four collaborators: the file system
    ([tempfile], [os]), the inference runtime ([onnxruntime]), an HTTP client
    ([requests]) and the page ([streamlit]).  The file system, the log of
    runtime calls and the page are fields of a [World] that every statement
    transforms; what the runtime and the HTTP server answer is a parameter
    ([Env]).  A Python exception is a value of type [PyExc]; a statement
    either finishes or raises. *)

From Stdlib Require Import Floats ZArith.
From stdpp Require Import gmap strings list pretty.

Open Scope string_scope.

(** ** Numbers and arrays *)

(** [volume] and [impeller_speed] are Python floats (binary64): [float].
    An element of a [np.float32] array is a [spec_float] of the binary32
    format (24 bits of precision, [emax = 128]). *)
Definition float32_of (x : spec_float) : spec_float :=
  match x with
  | S754_finite s m e => binary_round 24 128 s m e
  | _ => x
  end.

(** [np.float32(x)] for a Python float: round to nearest, ties to even;
    beyond the binary32 range the result is an infinity. *)
Definition float32 (x : float) : spec_float := float32_of (Prim2SF x).

(** A numpy array: its shape and its elements in row-major order. *)
Record ndarray := { arr_shape : list nat; arr_data : list spec_float }.

(** [np.array(values, dtype=np.float32)] for a flat list of floats. *)
Definition np_array1 (values : list float) : ndarray :=
  {| arr_shape := [length values]; arr_data := float32 <$> values |}.

(** [np.array([values], dtype=np.float32)]: one row. *)
Definition np_array2 (values : list float) : ndarray :=
  {| arr_shape := [1%nat; length values]; arr_data := float32 <$> values |}.

(** [a.flatten()] *)
Definition flatten (a : ndarray) : ndarray :=
  {| arr_shape := [length (arr_data a)]; arr_data := arr_data a |}.

(** ** The model signature *)

(** A dimension of a declared shape: a size, a symbolic name or [None]. *)
Inductive Dim := DimInt (n : Z) | DimSym (s : string) | DimNone.

Record NodeArg := { name : string; shape : list Dim }.

(** *** [repr] of a Python string

    A [string] holds the UTF-8 bytes of the Python string; a byte below 128
    is an ASCII character. *)

Definition single_quote : Ascii.ascii := Ascii.ascii_of_nat 39.
Definition double_quote : Ascii.ascii := Ascii.ascii_of_nat 34.
Definition backslash : Ascii.ascii := Ascii.ascii_of_nat 92.

Fixpoint contains (c : Ascii.ascii) (s : string) : bool :=
  match s with
  | EmptyString => false
  | String c' rest => bool_decide (c' = c) || contains c rest
  end.

(** The lower-case hexadecimal digit of a number below 16. *)
Definition hex_digit (n : nat) : Ascii.ascii :=
  Ascii.ascii_of_nat (if decide (n < 10)%nat then 48 + n else 87 + n).

(** One character inside the quotes: the quote in use and the backslash get
    a backslash, tab, line feed and carriage return their letter, the other
    control characters and DEL the form [\xhh]; every other ASCII character
    stands for itself.  So does a byte of a non-ASCII character, which is
    what Python does when that character is printable. *)
Definition escape_char (quote c : Ascii.ascii) : string :=
  let n := Ascii.nat_of_ascii c in
  if bool_decide (c = quote) || bool_decide (c = backslash) then
    String backslash (String c "")
  else if decide (n = 9%nat) then String backslash "t"
  else if decide (n = 10%nat) then String backslash "n"
  else if decide (n = 13%nat) then String backslash "r"
  else if decide (n < 32 ∨ n = 127)%nat then
    String backslash
      (String (Ascii.ascii_of_nat 120)
         (String (hex_digit (n / 16)) (String (hex_digit (n mod 16)) "")))
  else String c "".

Fixpoint escape (quote : Ascii.ascii) (s : string) : string :=
  match s with
  | EmptyString => ""
  | String c rest => escape_char quote c ++ escape quote rest
  end.

(** [repr(s)]: between single quotes, or between double quotes when [s]
    holds a single quote and no double quote. *)
Definition repr_str (s : string) : string :=
  let quote :=
    if contains single_quote s && negb (contains double_quote s)
    then double_quote else single_quote in
  String quote (escape quote s ++ String quote "").


(** [repr] of a shape, as the f-string of the rejection message prints it:
    a size as the integer it is, a symbolic name as the string it is,
    [None] as such. *)
Definition repr_dim (d : Dim) : string :=
  match d with
  | DimInt n => pretty n
  | DimSym s => repr_str s
  | DimNone => "None"
  end.


Fixpoint join (sep : string) (l : list string) : string :=
  match l with
  | [] => ""
  | [x] => x
  | x :: rest => x ++ sep ++ join sep rest
  end.

Definition repr_shape (sh : list Dim) : string :=
  "[" ++ join ", " (repr_dim <$> sh) ++ "]".

(** A loaded [ort.InferenceSession].  [run] is the runtime's execution entry
    point, [session.run(output_names, input_feed)]: it answers with the
    output arrays or with the message of the exception it raises.  The
    runtime is taken to be deterministic: [run] is a function. *)
Record Session := {
  get_inputs : list NodeArg;
  get_outputs : list NodeArg;
  run : option (list string) → gmap string ndarray → string + list ndarray
}.

(** ** Exceptions *)

(** The classes that the modelled statements raise.  All of them derive from
    [Exception], so [except Exception] catches each one. *)
Inductive ExcClass :=
  | FileExistsError | FileNotFoundError | PermissionError
  | IndexError | KeyError | UnboundLocalError
  | OrtError          (* raised by onnxruntime *)
  | RequestException  (* raised by requests.get *)
  | PlainException.   (* raise Exception(...) *)

(** [exc_str e] is [str(e)]. *)
Record PyExc := { exc_class : ExcClass; exc_str : string }.

(** ** The world *)

Record Response := { status_code : Z; content : list Byte.byte }.

(** What the page shows: one constructor per streamlit call of the apps. *)
Inductive UiEvent :=
  | StPageConfig (page_title : string)
  | StTitle (s : string)
  | StHeader (s : string)
  | StMarkdown (s : string)
  | StCaption (s : string)
  | StSubheader (s : string)
  | StText (s : string)
  | StWrite (s : string)
  | StWarning (s : string)
  | StError (s : string)
  | StInfo (s : string)
  | StDownloadButton (label data file_name mime : string).

Record World := {
  files : gmap string (list Byte.byte);
  (** paths that the operating system refuses to remove *)
  undeletable : gset string;
  (** the random parts that [tempfile] draws, in order *)
  tmp_names : list string;
  (** the calls of [session.run], oldest first *)
  ort_calls : list (option (list string) * gmap string ndarray);
  (** the page, oldest first *)
  ui : list UiEvent
}.

(** The world after the page has shown [evs]. *)
Definition page_add (w : World) (evs : list UiEvent) : World :=
  {| files := files w;
     undeletable := undeletable w;
     tmp_names := tmp_names w;
     ort_calls := ort_calls w;
     ui := ui w ++ evs |}.

(** What the collaborators answer. *)
Record Env := {
  (** the runtime's parser: the session of a serialized model, if it is one *)
  ort_parse : list Byte.byte → option Session;
  (** the message of the runtime when the file at a path does not parse *)
  ort_load_error : string → list Byte.byte → string;
  (** [requests.get(url)] *)
  requests_get : string → PyExc + Response;
  (** [str] of a [np.float32] and of an array *)
  str_float32 : spec_float → string;
  str_ndarray : ndarray → string
}.

(** ** Statements *)

(** The locals of the running function that the code may find unbound. *)
Record Locals := { model_path : option string }.

Definition no_locals : Locals := {| model_path := None |}.

(** A statement runs in a frame and a world; it finishes with a value or
    raises. *)
Definition M (A : Type) : Type := Locals * World → (Locals * World) * (PyExc + A).

Global Instance M_ret : MRet M := λ A a s, (s, inr a).
Global Instance M_bind : MBind M := λ A B f m s,
  match m s with
  | (s', inl e) => (s', inl e)
  | (s', inr a) => f a s'
  end.

Definition raise {A} (c : ExcClass) (msg : string) : M A :=
  λ s, (s, inl {| exc_class := c; exc_str := msg |}).

Definition reraise {A} (e : PyExc) : M A := λ s, (s, inl e).

(** [try: body  except Exception as e: handler e] *)
Definition try_except {A} (body : M A) (handler : PyExc → M A) : M A :=
  λ s, match body s with
       | (s', inl e) => handler e s'
       | r => r
       end.

(** [try: body  except: pass] *)
Definition try_pass (body : M ()) : M () := try_except body (λ _, mret ()).

(** [try: body  finally: cleanup].  An exception of [body] is raised again
    after [cleanup], unless [cleanup] raises one itself. *)
Definition try_finally {A} (body : M A) (cleanup : M ()) : M A :=
  λ s, match body s with
       | (s', inl e) => (cleanup ;; reraise e) s'
       | (s', inr a) => (cleanup ;; mret a) s'
       end.

(** A call: the callee runs in a frame of its own. *)
Definition call {A} (f : M A) : M A :=
  λ '(l, w), let '((_, w'), r) := f (no_locals, w) in ((l, w'), r).

Definition get_world : M World := λ s, (s, inr s.2).
Definition put_world (w : World) : M () := λ s, ((s.1, w), inr ()).

Definition bind_model_path (p : string) : M () :=
  λ s, (({| model_path := Some p |}, s.2), inr ()).

(** Reading the local [model_path]. *)
Definition read_model_path : M string :=
  λ s, match model_path s.1 with
       | Some p => (s, inr p)
       | None => (s, inl {| exc_class := UnboundLocalError;
                            exc_str := "cannot access local variable 'model_path' where it is not associated with a value" |})
       end.

(** ['model_path' in locals()] *)
Definition model_path_in_locals : M bool :=
  λ s, (s, inr (bool_decide (is_Some (model_path s.1)))).

(** *** The file system *)

Definition tmp_path (suffix random : string) : string :=
  "/tmp/tmp" ++ random ++ suffix.

(** [tempfile] tries its random names in turn and skips a name that is
    taken; [None] when it runs out of names. *)
Fixpoint first_free (fs : gmap string (list Byte.byte)) (suffix : string)
    (names : list string) : option (string * list string) :=
  match names with
  | [] => None
  | r :: rest =>
      if decide (is_Some (fs !! tmp_path suffix r))
      then first_free fs suffix rest
      else Some (tmp_path suffix r, rest)
  end.

(** [with tempfile.NamedTemporaryFile(suffix=..., delete=False) as tmp_file:
       tmp_file.write(data)]: the file is created, written and closed, and
    stays on disk.  The value is [tmp_file.name].  Once the file is created,
    writing and closing it are taken to go through; [TmpFile] below has the
    block with a write or a close that raises. *)
Definition NamedTemporaryFile_write (suffix : string) (data : list Byte.byte) : M string :=
  w ← get_world;
  match first_free (files w) suffix (tmp_names w) with
  | None => raise FileExistsError "[Errno 17] No usable temporary file name found"
  | Some (p, rest) =>
      put_world {| files := <[p := data]> (files w);
                   undeletable := undeletable w;
                   tmp_names := rest;
                   ort_calls := ort_calls w;
                   ui := ui w |} ;;
      mret p
  end.

(** [os.unlink(p)], which is also [os.remove(p)]. *)
Definition os_unlink (p : string) : M () :=
  w ← get_world;
  if decide (is_Some (files w !! p)) then
    if decide (p ∈ undeletable w) then
      raise PermissionError ("[Errno 13] Permission denied: '" ++ p ++ "'")
    else
      put_world {| files := delete p (files w);
                   undeletable := undeletable w;
                   tmp_names := tmp_names w;
                   ort_calls := ort_calls w;
                   ui := ui w |}
  else raise FileNotFoundError ("[Errno 2] No such file or directory: '" ++ p ++ "'").

(** [os.path.exists(p)] *)
Definition os_path_exists (p : string) : M bool :=
  w ← get_world; mret (bool_decide (is_Some (files w !! p))).

(** *** The page *)

Definition st (ev : UiEvent) : M () :=
  w ← get_world; put_world (page_add w [ev]).

(** *** The runtime *)

Section Runtime.
Context (env : Env).

(** [ort.InferenceSession(path)]: the runtime opens the file and parses
    it. *)
Definition InferenceSession (path : string) : M Session :=
  w ← get_world;
  match files w !! path with
  | None =>
      raise OrtError ("[ONNXRuntimeError] : 3 : NO_SUCHFILE : Load model from "
                      ++ path ++ " failed. File doesn't exist")
  | Some bytes =>
      match ort_parse env bytes with
      | Some session => mret session
      | None => raise OrtError (ort_load_error env path bytes)
      end
  end.

(** [session.run(output_names, input_feed)]: the call is logged, then the
    runtime answers. *)
Definition session_run (session : Session) (output_names : option (list string))
    (input_feed : gmap string ndarray) : M (list ndarray) :=
  w ← get_world;
  put_world {| files := files w;
               undeletable := undeletable w;
               tmp_names := tmp_names w;
               ort_calls := ort_calls w ++ [(output_names, input_feed)];
               ui := ui w |} ;;
  match run session output_names input_feed with
  | inl msg => raise OrtError msg
  | inr outputs => mret outputs
  end.
End Runtime.

(** *** Indexing *)

(** [l[i]] for a Python list and a constant index [i >= 0]. *)
Definition list_getitem {A} (l : list A) (i : nat) : M A :=
  match l !! i with
  | Some x => mret x
  | None => raise IndexError "list index out of range"
  end.

(** [a[i]] for a one-dimensional array and an index [i >= 0]. *)
Definition array_getitem (a : ndarray) (i : nat) : M spec_float :=
  match arr_data a !! i with
  | Some x => mret x
  | None =>
      raise IndexError ("index " ++ pretty i ++ " is out of bounds for axis 0 with size "
                        ++ pretty (length (arr_data a)))
  end.

(** [len(a)] of a one-dimensional array. *)
Definition len (a : ndarray) : nat := length (arr_data a).

(** [for x in l: body x] *)
Fixpoint for_each {A} (l : list A) (body : A → M ()) : M () :=
  match l with
  | [] => mret ()
  | x :: rest => body x ;; for_each rest body
  end.

(** [enumerate(l)] *)
Definition enumerate {A} (l : list A) : list (nat * A) := zip (seq 0 (length l)) l.

(** [d[k]] for a dict written as the list of its items. *)
Fixpoint dict_getitem (d : list (string * string)) (k : string) : M string :=
  match d with
  | [] => raise KeyError ("'" ++ k ++ "'")
  | (k', v) :: rest => if decide (k' = k) then mret v else dict_getitem rest k
  end.

(** The line feed of the f-strings. *)
Definition nl : string := String (Ascii.ascii_of_nat 10) "".

(** What [run_inference] returns: the pair [(True, payload)] or the pair
    [(False, message)]. *)
Inductive Outcome (P : Type) :=
  | Succeeded (payload : P)
  | Failed (message : string).
Arguments Succeeded {P} payload.
Arguments Failed {P} message.

(** ** Conjuagation_APP.py *)

Module App.

(** [(input_names, input_dict, output_names, outputs)] *)
Definition Payload : Type :=
  list string * gmap string ndarray * list string * list ndarray.

(** The widgets of the form: what the user entered. *)
Record Form := {
  uploaded_file : option (list Byte.byte);
  volume : float;
  impeller_speed : float;
  button : bool
}.

(** Lines 106-122, the loop over the declared inputs.  [inl] is the [return]
    of line 120, which leaves [run_inference]; [inr] is the dictionary when
    the loop runs to its end. *)
Fixpoint fill_input_dict (inputs : list NodeArg) (volume impeller_speed : float)
    (input_dict : gmap string ndarray) : string + gmap string ndarray :=
  match inputs with
  | [] => inr input_dict
  | input_info :: rest =>
      let values := [volume; impeller_speed] in
      if decide (length (shape input_info) = 1%nat) then
        fill_input_dict rest volume impeller_speed
          (<[name input_info := np_array1 values]> input_dict)
      else if decide (length (shape input_info) = 2%nat) then
        fill_input_dict rest volume impeller_speed
          (<[name input_info := np_array2 values]> input_dict)
      else
        inl ("Unexpected input shape: " ++ repr_shape (shape input_info)
             ++ ". Model should accept 1D or 2D input.")
  end.

Section WithEnv.
Context (env : Env).

(** Lines 91-133, the body of the [try].  [tmp_name] is the value of the
    local [model_path], which line 94 binds. *)
Definition run_inference_try (model_bytes : list Byte.byte)
    (volume impeller_speed : float) : M (Outcome Payload) :=
  tmp_name ← NamedTemporaryFile_write ".onnx" model_bytes;
  bind_model_path tmp_name ;;
  session ← InferenceSession env tmp_name;
  let inputs := get_inputs session in
  let input_names := name <$> inputs in
  match fill_input_dict inputs volume impeller_speed ∅ with
  | inl message => mret (Failed message)
  | inr input_dict =>
      let output_names := name <$> get_outputs session in
      outputs ← session_run session (Some output_names) input_dict;
      os_unlink tmp_name ;;
      mret (Succeeded (input_names, input_dict, output_names, outputs))
  end.

(** Lines 135-142, the handler. *)
Definition run_inference_except (e : PyExc) : M (Outcome Payload) :=
  try_pass (bound ← model_path_in_locals;
            if bound : bool then (p ← read_model_path; os_unlink p) else mret ()) ;;
  mret (Failed (exc_str e)).

Definition run_inference (model_bytes : list Byte.byte)
    (volume impeller_speed : float) : M (Outcome Payload) :=
  call (try_except (run_inference_try model_bytes volume impeller_speed)
                   run_inference_except).

(** Lines 57-79 of [main]: the display of a successful result. *)
Definition show_results (result : Payload) : M () :=
  let '(input_names, input_dict, output_names, outputs) := result in
  st (StSubheader "Results") ;;
  first_output ← list_getitem outputs 0;
  let output_array := flatten first_output in
  if decide (5 ≤ len output_array)%nat then
    x0 ← array_getitem output_array 0;
    x1 ← array_getitem output_array 1;
    x2 ← array_getitem output_array 2;
    x3 ← array_getitem output_array 3;
    x4 ← array_getitem output_array 4;
    st (StText ("Shear Rate: " ++ str_float32 env x0 ++ nl ++
                "Power: " ++ str_float32 env x1 ++ nl ++
                "Tip Speed: " ++ str_float32 env x2 ++ nl ++
                "Reynolds Number: " ++ str_float32 env x3 ++ nl ++
                "Power Number: " ++ str_float32 env x4))
  else
    st (StWarning "Output array doesn't contain enough values for all the requested parameters.") ;;
    st (StWrite ("Available values: " ++ str_ndarray env output_array)).

Definition main (form : Form) : M () :=
  call (
  st (StPageConfig "ONNX Model Inference") ;;
  st (StTitle "ONNX Model Inference Tool") ;;
  st (StWrite "Upload your ONNX model and run inference in the cloud!") ;;
  st (StHeader "About") ;;
  st (StInfo "This app allows you to upload an ONNX model and run inference with custom input values. The model should accept two input values: Volume and Impeller Speed.") ;;
  st (StHeader "Instructions") ;;
  st (StMarkdown (nl ++
"            1. Upload your ONNX model using the file uploader" ++ nl ++
"            2. Enter the required input values" ++ nl ++
"            3. Click 'Run Inference' to see the results" ++ nl ++
"            ")) ;;
  st (StSubheader "Model Inputs") ;;
  match uploaded_file form with
  | Some model_bytes =>
      if button form then
        r ← run_inference model_bytes (volume form) (impeller_speed form);
        match r with
        | Succeeded result => show_results result
        | Failed result => st (StError ("Error running inference: " ++ result))
        end
      else mret ()
  | None => st (StInfo "Please upload an ONNX model to begin.")
  end ;;
  st (StMarkdown "---") ;;
  st (StCaption "ONNX Model Inference Tool - Powered by Streamlit and ONNX Runtime")).

End WithEnv.
End App.

(** ** GUI_Conjuagation.py *)

Module Gui.

(** Lines 103-156 are, character for character, lines 89-142 of
    [Conjuagation_APP.py]. *)
Definition run_inference := App.run_inference.

(** The form of lines 36-48 has the widgets of Conjuagation_APP.py. *)
Definition Form : Type := App.Form.

(** [repr] of a string, of a list of strings, and of a tuple of sizes
    ([a.shape]). *)
Definition repr_str (s : string) : string := repr_str s.

Definition repr_str_list (l : list string) : string :=
  "[" ++ join ", " (repr_str <$> l) ++ "]".

Definition repr_tuple (sh : list nat) : string :=
  match sh with
  | [] => "()"
  | [n] => "(" ++ pretty n ++ ",)"
  | _ => "(" ++ join ", " (pretty <$> sh) ++ ")"
  end.

(** [a.size]: the product of the dimensions. *)
Definition size (a : ndarray) : nat := foldr Nat.mul 1%nat (arr_shape a).

(** [a[:10]] for a one-dimensional array. *)
Definition first10 (a : ndarray) : ndarray :=
  {| arr_shape := [length (take 10 (arr_data a))]; arr_data := take 10 (arr_data a) |}.

(** The keys of a dict that was filled by assigning the keys [l] in turn:
    each key once, at the place where it came first. *)
Fixpoint insertion_order (seen l : list string) : list string :=
  match l with
  | [] => []
  | k :: rest =>
      if decide (k ∈ seen) then insertion_order seen rest
      else k :: insertion_order (k :: seen) rest
  end.

Section WithEnv.
Context (env : Env).
(** ['%.18e' % x], the format with which [np.savetxt] writes a value *)
Context (fmt_18e : spec_float → string).

(** [np.savetxt(output_csv, a, delimiter=',')] for a one-dimensional array:
    one value per line. *)
Definition savetxt (a : ndarray) : string :=
  foldr (λ x acc, fmt_18e x ++ nl ++ acc) "" (arr_data a).

(** Lines 64-69.  [input_dict] is the dictionary that [run_inference]
    filled in the order of [input_names], so [input_dict.items()] goes
    through the names in that order. *)
Definition show_inputs (input_names : list string)
    (input_dict : gmap string ndarray) : M () :=
  st (StSubheader "Input Values") ;;
  for_each (insertion_order [] input_names) (λ key,
    match input_dict !! key with
    | Some value =>
        st (StWrite ("Input '" ++ key ++ "':")) ;;
        st (StWrite ("  Shape: " ++ repr_tuple (arr_shape value))) ;;
        st (StWrite ("  Values: " ++ str_ndarray env value))
    | None => mret ()
    end).

(** Lines 74-93, the body of the loop over the outputs.  [st.write] of an
    array is recorded by the [str] of the array. *)
Definition show_output (outputs : list ndarray) (item : nat * string) : M () :=
  let '(i, output_name) := item in
  st (StWrite ("Output '" ++ output_name ++ "':")) ;;
  shown ← list_getitem outputs i;
  st (StWrite ("  Shape: " ++ repr_tuple (arr_shape shown))) ;;
  sized ← list_getitem outputs i;
  if decide (size sized < 10)%nat then
    small ← list_getitem outputs i;
    st (StWrite ("  Values: " ++ str_ndarray env small))
  else
    large ← list_getitem outputs i;
    let output_flat := flatten large in
    st (StWrite "  First 10 values:") ;;
    st (StWrite (str_ndarray env (first10 output_flat))) ;;
    st (StDownloadButton "Download full results as CSV" (savetxt output_flat)
          (output_name ++ "_results.csv") "text/csv").

(** Lines 72-93. *)
Definition show_outputs (output_names : list string) (outputs : list ndarray) : M () :=
  st (StSubheader "Results") ;;
  for_each (enumerate output_names) (show_output outputs).

(** Lines 57-93 of [main]: the display of a successful result. *)
Definition show_results (result : App.Payload) : M () :=
  let '(input_names, input_dict, output_names, outputs) := result in
  st (StSubheader "Model Information") ;;
  st (StWrite ("Number of inputs: " ++ pretty (length input_names))) ;;
  st (StWrite ("Input names: " ++ repr_str_list input_names)) ;;
  show_inputs input_names input_dict ;;
  show_outputs output_names outputs.

Definition main (form : Form) : M () :=
  call (
  st (StPageConfig "ONNX Model Inference") ;;
  st (StTitle "ONNX Model Inference Tool") ;;
  st (StWrite "Upload your ONNX model and run inference in the cloud!") ;;
  st (StHeader "About") ;;
  st (StInfo "This app allows you to upload an ONNX model and run inference with custom input values. The model should accept two input values: Volume and Impeller Speed.") ;;
  st (StHeader "Instructions") ;;
  st (StMarkdown (nl ++
"            1. Upload your ONNX model using the file uploader" ++ nl ++
"            2. Enter the required input values" ++ nl ++
"            3. Click 'Run Inference' to see the results" ++ nl ++
"            ")) ;;
  st (StSubheader "Model Inputs") ;;
  match App.uploaded_file form with
  | Some model_bytes =>
      if App.button form then
        r ← run_inference env model_bytes (App.volume form) (App.impeller_speed form);
        match r with
        | Succeeded result => show_results result
        | Failed result => st (StError ("Error running inference: " ++ result))
        end
      else mret ()
  | None => st (StInfo "Please upload an ONNX model to begin.")
  end ;;
  st (StMarkdown "---") ;;
  st (StCaption "ONNX Model Inference Tool - Powered by Streamlit and ONNX Runtime")).

End WithEnv.

End Gui.

(** ** Conjuagation_APP_V2.py *)

Module V2.

Definition MODEL_OPTIONS : list (string * string) :=
  [("2L to 5L", "https://github.com/code2mech/App/blob/main/2L_5L.onnx");
   ("10L to 20L", "https://github.com/code2mech/App/blob/main/10L_20L.onnx");
   ("800L to 2000L", "https://raw.githubusercontent.com/yourusername/yourrepo/main/model_heat.onnx")].

Definition OUTPUT_LABELS : list string :=
  ["Shear Rate"; "Power"; "Tip Speed"; "Reynolds Number"; "Power Number"].

(** [(input_names, input_dict, session.get_outputs(), outputs)] *)
Definition Payload : Type :=
  list string * gmap string ndarray * list NodeArg * list ndarray.

Record Form := {
  selected_model_name : string;
  volume : float;
  impeller_speed : float;
  button : bool
}.

Section WithEnv.
Context (env : Env).

Definition download_model_from_github (url : string) : M string :=
  call (match requests_get env url with
        | inl e => reraise e
        | inr response =>
            if decide (status_code response = 200%Z) then
              NamedTemporaryFile_write ".onnx" (content response)
            else raise PlainException "Failed to download model from GitHub."
        end).

Definition run_inference (path : string) (volume impeller_speed : float)
    : M (Outcome Payload) :=
  call (try_except
          (session ← InferenceSession env path;
           let input_names := name <$> get_inputs session in
           let input_data := np_array2 [volume; impeller_speed] in
           first_name ← list_getitem input_names 0;
           let input_dict : gmap string ndarray := {[ first_name := input_data ]} in
           outputs ← session_run session None input_dict;
           mret (Succeeded (input_names, input_dict, get_outputs session, outputs)))
          (λ e, mret (Failed (exc_str e)))).

(** Lines 45-63 of [main]: the display of a successful result. *)
Definition show_results (result : Payload) : M () :=
  let '(_, _, output_names, outputs) := result in
  first_output ← list_getitem outputs 0;
  let output_array := flatten first_output in
  st (StSubheader "📊 Results") ;;
  (if decide (5 ≤ len output_array)%nat then
     for_each (seq 0 5) (λ i,
       label ← list_getitem OUTPUT_LABELS i;
       x ← array_getitem output_array i;
       st (StWrite ("**" ++ label ++ "**: " ++ str_float32 env x)))
   else
     st (StWarning "Not enough outputs to label. Showing raw values:") ;;
     for_each (enumerate (arr_data output_array)) (λ '(i, val),
       st (StWrite ("Output " ++ pretty (i + 1)%nat ++ ": " ++ str_float32 env val)))) ;;
  st (StDownloadButton "Download results as CSV"
        (join "," (str_float32 env <$> arr_data output_array))
        "inference_results.csv" "text/csv").

(** [downloaded] is the value of the local [model_path], which line 41
    binds when the download returns. *)
Definition main (form : Form) : M () :=
  call (
  st (StPageConfig "ONNX Model Inference") ;;
  st (StTitle "🧠 ONNX Model Inference from GitHub") ;;
  selected_model_url ← dict_getitem MODEL_OPTIONS (selected_model_name form);
  if button form then
    try_finally
      (downloaded ← download_model_from_github selected_model_url;
       bind_model_path downloaded ;;
       r ← run_inference downloaded (volume form) (impeller_speed form);
       match r with
       | Succeeded result => show_results result
       | Failed result => st (StError ("Inference failed: " ++ result))
       end)
      (p ← read_model_path;
       exists_ ← os_path_exists p;
       if exists_ : bool then os_unlink p else mret ())
  else mret ()).

End WithEnv.
End V2.

(** ** A runtime to run the apps on *)

Module Demo.

Definition f32 (x : float) : spec_float := float32 x.

(** The answer of the demo models: five values, or three for the short
    model, for any input. *)
Definition five : ndarray :=
  {| arr_shape := [1; 5]%nat;
     arr_data := f32 <$> [12.5; 3; 0.75; 40000; 1.5]%float |}.
Definition three : ndarray :=
  {| arr_shape := [1; 3]%nat; arr_data := f32 <$> [12.5; 3; 0.75]%float |}.

Definition session_of (inputs : list NodeArg) (out : ndarray) : Session :=
  {| get_inputs := inputs;
     get_outputs := [{| name := "output"; shape := [DimNone; DimInt 5] |}];
     run := λ _ feed,
       if decide (dom feed = list_to_set (name <$> inputs)) then inr [out]
       else inl "[ONNXRuntimeError] : 2 : INVALID_ARGUMENT : Missing Input" |}.

Definition rank1 := session_of [{| name := "input"; shape := [DimInt 2] |}] five.
Definition rank2 := session_of [{| name := "input"; shape := [DimInt 1; DimInt 2] |}] five.
Definition rank3 := session_of [{| name := "input"; shape := [DimInt 2; DimInt 2; DimInt 2] |}] five.
Definition two_inputs :=
  session_of [{| name := "volume"; shape := [DimInt 2] |};
              {| name := "speed"; shape := [DimNone; DimInt 2] |}] five.
Definition short := session_of [{| name := "input"; shape := [DimInt 1; DimInt 2] |}] three.

(** The first byte of a demo model file selects the model. *)
Definition parse (bytes : list Byte.byte) : option Session :=
  match bytes with
  | Byte.x01 :: _ => Some rank1
  | Byte.x02 :: _ => Some rank2
  | Byte.x03 :: _ => Some rank3
  | Byte.x04 :: _ => Some two_inputs
  | Byte.x05 :: _ => Some short
  | _ => None
  end.

Definition get (url : string) : PyExc + Response :=
  if decide (url = "https://github.com/code2mech/App/blob/main/2L_5L.onnx") then
    inr {| status_code := 200; content := [Byte.x02] |}
  else if decide (url = "https://github.com/code2mech/App/blob/main/10L_20L.onnx") then
    inr {| status_code := 200; content := [Byte.x3c; Byte.x21] |}
  else inr {| status_code := 404; content := [] |}.

Definition env : Env :=
  {| ort_parse := parse;
     ort_load_error := λ path _,
       "[ONNXRuntimeError] : 7 : INVALID_PROTOBUF : Load model from " ++ path
       ++ " failed:Protobuf parsing failed.";
     requests_get := get;
     str_float32 := λ x, match x with
                         | S754_finite s m e =>
                             (if s then "-" else "") ++ pretty (Z.pos m) ++ "p" ++ pretty e
                         | S754_zero _ => "0.0"
                         | S754_infinity s => if s then "-inf" else "inf"
                         | S754_nan => "nan"
                         end;
     str_ndarray := λ a, "[...]" |}.

Definition world : World :=
  {| files := ∅; undeletable := ∅; tmp_names := ["a1b2c3d4"; "e5f6g7h8"];
     ort_calls := []; ui := [] |}.

End Demo.

(** ** Models and worlds at the edges *)

Module Edge.

(** A model that declares no input, one that declares no output, and one
    with a short and a long output. *)
Definition no_inputs : Session :=
  {| get_inputs := [];
     get_outputs := [{| name := "output"; shape := [DimNone; DimInt 5] |}];
     run := λ _ _, inr [Demo.five] |}.

Definition no_outputs : Session :=
  {| get_inputs := [{| name := "input"; shape := [DimInt 1; DimInt 2] |}];
     get_outputs := [];
     run := λ _ _, inr [] |}.

Definition twelve : ndarray :=
  {| arr_shape := [1; 12]%nat;
     arr_data := float32 <$> [1; 2; 3; 4; 5; 6; 7; 8; 9; 10; 11; 12]%float |}.

Definition two_outputs : Session :=
  {| get_inputs := [{| name := "input"; shape := [DimInt 1; DimInt 2] |}];
     get_outputs := [{| name := "summary"; shape := [DimInt 1; DimInt 3] |};
                     {| name := "profile"; shape := [DimInt 1; DimInt 12] |}];
     run := λ _ _, inr [Demo.three; twelve] |}.

(** A model on which the runtime fails. *)
Definition failing : Session :=
  {| get_inputs := [{| name := "input"; shape := [DimInt 1; DimInt 2] |}];
     get_outputs := [{| name := "output"; shape := [DimNone; DimInt 5] |}];
     run := λ _ _, inl "[ONNXRuntimeError] : 2 : INVALID_ARGUMENT : Unexpected input data type" |}.

Definition parse (bytes : list Byte.byte) : option Session :=
  match bytes with
  | Byte.x06 :: _ => Some no_inputs
  | Byte.x07 :: _ => Some no_outputs
  | Byte.x08 :: _ => Some two_outputs
  | Byte.x0a :: _ => Some failing
  | _ => Demo.parse bytes
  end.

(** A network that is down. *)
Definition offline (url : string) : PyExc + Response :=
  inl {| exc_class := RequestException;
         exc_str := "HTTPSConnectionPool(host='github.com', port=443): Max retries exceeded" |}.

Definition env : Env :=
  {| ort_parse := parse;
     ort_load_error := ort_load_error Demo.env;
     requests_get := offline;
     str_float32 := str_float32 Demo.env;
     str_ndarray := str_ndarray Demo.env |}.

(** A disk on which [tempfile] finds no free name. *)
Definition no_names : World :=
  {| files := ∅; undeletable := ∅; tmp_names := []; ort_calls := []; ui := [] |}.

End Edge.

(** ** Notions that the properties are stated with *)

(** A declared input that the loop of lines 106-122 accepts. *)
Definition supported (input_info : NodeArg) : Prop :=
  length (shape input_info) = 1%nat ∨ length (shape input_info) = 2%nat.

Global Instance supported_dec input_info : Decision (supported input_info).
Proof. unfold supported. apply _. Defined.

(** The array that line 115 or line 118 builds for a declared input. *)
Definition shaped (input_info : NodeArg) (volume impeller_speed : float) : ndarray :=
  if decide (length (shape input_info) = 1%nat)
  then np_array1 [volume; impeller_speed]
  else np_array2 [volume; impeller_speed].

(** The world once the temporary file is written. *)
Definition written (w : World) (p : string) (data : list Byte.byte)
    (rest : list string) : World :=
  {| files := <[p := data]> (files w); undeletable := undeletable w;
     tmp_names := rest; ort_calls := ort_calls w; ui := ui w |}.

(** The world once [session.run] has been called. *)
Definition called (w : World) (output_names : option (list string))
    (input_feed : gmap string ndarray) : World :=
  {| files := files w; undeletable := undeletable w; tmp_names := tmp_names w;
     ort_calls := ort_calls w ++ [(output_names, input_feed)]; ui := ui w |}.

(** The world once a file is removed. *)
Definition removed (w : World) (p : string) : World :=
  {| files := delete p (files w); undeletable := undeletable w;
     tmp_names := tmp_names w; ort_calls := ort_calls w; ui := ui w |}.

(** The world after the handler of lines 135-142: the file is removed when
    [model_path] is bound and the removal goes through; otherwise nothing
    changes. *)
Definition cleaned (lo : Locals) (w : World) : World :=
  match model_path lo with
  | Some p =>
      if decide (is_Some (files w !! p) ∧ p ∉ undeletable w) then removed w p else w
  | None => w
  end.

(** ** Worlds to run the apps in *)

Module Worlds.

(** A disk that holds one downloaded model. *)
Definition downloaded (bytes : list Byte.byte) : World :=
  {| files := {[ "/tmp/tmpmodel.onnx" := bytes ]}; undeletable := ∅;
     tmp_names := ["a1b2c3d4"; "e5f6g7h8"]; ort_calls := []; ui := [] |}.

(** A disk on which the first temporary file cannot be removed. *)
Definition locked : World :=
  {| files := ∅; undeletable := {[ "/tmp/tmpa1b2c3d4.onnx" ]};
     tmp_names := ["a1b2c3d4"; "e5f6g7h8"]; ort_calls := []; ui := [] |}.

End Worlds.

(** [float(x)] for an element [x] of a [np.float32] array: the same number
    as a Python float. *)
Definition float_of_float32 (x : spec_float) : float := SF2Prim x.

(** The line that Conjuagation_APP_V2.py writes for a raw value. *)
Definition raw_line (env : Env) (item : nat * spec_float) : UiEvent :=
  StWrite ("Output " ++ pretty (item.1 + 1)%nat ++ ": " ++ str_float32 env item.2).

Definition csv_button (env : Env) (a : ndarray) : UiEvent :=
  StDownloadButton "Download results as CSV"
    (join "," (str_float32 env <$> arr_data a)) "inference_results.csv" "text/csv".

(** The world that a run on the demo model with two inputs leaves. *)
Definition after_first_run_two_inputs : World :=
  removed (called (written Demo.world "/tmp/tmpa1b2c3d4.onnx" [Byte.x04] ["e5f6g7h8"])
             (Some ["output"])
             (<["speed" := np_array2 [1; 1]%float]>
                (<["volume" := np_array1 [1; 1]%float]> ∅)))
    "/tmp/tmpa1b2c3d4.onnx".

(** The world that a first run on the rank-2 demo model leaves. *)
Definition after_first_run : World :=
  removed (called (written Demo.world "/tmp/tmpa1b2c3d4.onnx" [Byte.x02] ["e5f6g7h8"])
             (Some ["output"]) {[ "input" := np_array2 [1; 1]%float ]})
    "/tmp/tmpa1b2c3d4.onnx".

(** What GUI_Conjuagation.py shows for one output: its name and shape, then
    the array itself when it has fewer than ten elements, and otherwise its
    first ten elements and a button that downloads all of them. *)
Definition output_page (env : Env) (fmt_18e : spec_float → string)
    (output_name : string) (o : ndarray) : list UiEvent :=
  [StWrite ("Output '" ++ output_name ++ "':");
   StWrite ("  Shape: " ++ Gui.repr_tuple (arr_shape o))] ++
  (if decide (Gui.size o < 10)%nat then
     [StWrite ("  Values: " ++ str_ndarray env o)]
   else
     [StWrite "  First 10 values:";
      StWrite (str_ndarray env (Gui.first10 (flatten o)));
      StDownloadButton "Download full results as CSV" (Gui.savetxt fmt_18e (flatten o))
        (output_name ++ "_results.csv") "text/csv"])%list.

(** ** The temporary file of Conjuagation_APP.py, with its failures *)

Module TmpFile.

(** What can go wrong in lines 92-94 once the file is created: nothing;
    [tmp_file.write] raises, after some leading bytes have reached the file;
    or the write goes through and closing the file, when the [with] block is
    left, raises. *)
Inductive Fault :=
  | NoFault
  | WriteRaises (kept : nat) (e : PyExc)
  | CloseRaises (kept : nat) (e : PyExc).

(** Lines 92-94.  The file stays on disk in every case ([delete=False]);
    [model_path] is bound by line 94, which a failing write does not
    reach. *)
Definition with_NamedTemporaryFile (fault : Fault) (suffix : string)
    (data : list Byte.byte) : M string :=
  w ← get_world;
  match first_free (files w) suffix (tmp_names w) with
  | None => raise FileExistsError "[Errno 17] No usable temporary file name found"
  | Some (p, rest) =>
      match fault with
      | NoFault =>
          put_world (written w p data rest) ;; bind_model_path p ;; mret p
      | WriteRaises kept e =>
          put_world (written w p (take kept data) rest) ;; reraise e
      | CloseRaises kept e =>
          put_world (written w p (take kept data) rest) ;; bind_model_path p ;;
          reraise e
      end
  end.

Section WithEnv.
Context (env : Env).

(** Lines 91-133, the body of the [try]. *)
Definition run_inference_try (fault : Fault) (model_bytes : list Byte.byte)
    (volume impeller_speed : float) : M (Outcome App.Payload) :=
  tmp_name ← with_NamedTemporaryFile fault ".onnx" model_bytes;
  session ← InferenceSession env tmp_name;
  let inputs := get_inputs session in
  let input_names := name <$> inputs in
  match App.fill_input_dict inputs volume impeller_speed ∅ with
  | inl message => mret (Failed message)
  | inr input_dict =>
      let output_names := name <$> get_outputs session in
      outputs ← session_run session (Some output_names) input_dict;
      os_unlink tmp_name ;;
      mret (Succeeded (input_names, input_dict, output_names, outputs))
  end.

Definition run_inference (fault : Fault) (model_bytes : list Byte.byte)
    (volume impeller_speed : float) : M (Outcome App.Payload) :=
  call (try_except (run_inference_try fault model_bytes volume impeller_speed)
                   App.run_inference_except).

End WithEnv.
End TmpFile.

(** * Properties *)

(** ** Unfolding statements *)

Ltac run_M :=
  unfold mbind, M_bind, mret, M_ret, raise, reraise, get_world, put_world,
    try_pass, try_except, try_finally, call, bind_model_path, read_model_path,
    model_path_in_locals in *; simpl in *.

Lemma first_free_fresh fs suffix names p rest :
  first_free fs suffix names = Some (p, rest) → fs !! p = None.
Proof.
  induction names as [|r names IH]; simpl; [discriminate|].
  destruct (decide (is_Some (fs !! tmp_path suffix r))) as [|Hfree]; [exact IH|].
  intros [= <- <-]. by apply eq_None_not_Some.
Qed.

(** ** The loop over the declared inputs *)

Lemma fill_input_dict_supported inputs v s d :
  Forall supported inputs →
  App.fill_input_dict inputs v s d =
    inr (foldl (λ acc i, <[name i := shaped i v s]> acc) d inputs).
Proof.
  intros H. revert d. induction H as [|i inputs Hi _ IH]; intros d; simpl; [done|].
  unfold shaped. destruct (decide (length (shape i) = 1%nat)); [apply IH|].
  destruct (decide (length (shape i) = 2%nat)); [apply IH|].
  destruct Hi; contradiction.
Qed.

Lemma fill_input_dict_unsupported (pre : list NodeArg) bad post v s d :
  Forall supported pre → ¬ supported bad →
  App.fill_input_dict (pre ++ bad :: post)%list v s d =
    inl ("Unexpected input shape: " ++ repr_shape (shape bad)
         ++ ". Model should accept 1D or 2D input.").
Proof.
  intros H Hbad. revert d. induction H as [|i pre Hi _ IH]; intros d; simpl.
  - destruct (decide (length (shape bad) = 1%nat)) as [E|_]; [destruct Hbad; by left|].
    destruct (decide (length (shape bad) = 2%nat)) as [E|_]; [destruct Hbad; by right|].
    done.
  - destruct (decide (length (shape i) = 1%nat)); [apply IH|].
    destruct (decide (length (shape i) = 2%nat)); [apply IH|].
    destruct Hi; contradiction.
Qed.

(** Every declared input is split by the loop: all supported, or a first
    one that is not. *)
Lemma inputs_split (inputs : list NodeArg) :
  Forall supported inputs ∨
  ∃ (pre : list NodeArg) bad post,
    inputs = (pre ++ bad :: post)%list ∧ Forall supported pre ∧ ¬ supported bad.
Proof.
  induction inputs as [|i inputs IH]; [by left|].
  destruct (decide (supported i)) as [Hi|Hi].
  - destruct IH as [IH|(pre & bad & post & -> & Hpre & Hbad)].
    + left. by constructor.
    + right. exists (i :: pre), bad, post. repeat split; [by constructor|done].
  - right. exists [], i, inputs. by repeat split.
Qed.

Lemma fill_input_dict_inr inputs v s d d' :
  App.fill_input_dict inputs v s d = inr d' →
  Forall supported inputs ∧
  d' = foldl (λ acc i, <[name i := shaped i v s]> acc) d inputs.
Proof.
  intros H. destruct (inputs_split inputs) as [Hall|(pre & bad & post & -> & Hpre & Hbad)].
  - split; [done|]. rewrite fill_input_dict_supported in H by done. by injection H.
  - by rewrite fill_input_dict_unsupported in H.
Qed.

Lemma foldl_insert_lookup (inputs : list NodeArg) v s (d : gmap string ndarray) n :
  is_Some (foldl (λ acc i, <[name i := shaped i v s]> acc) d inputs !! n) ↔
  n ∈ name <$> inputs ∨ is_Some (d !! n).
Proof.
  revert d. induction inputs as [|i inputs IH]; intros d; simpl.
  - split; [by right|]. intros [H|H]; [by apply elem_of_nil in H|done].
  - rewrite IH, elem_of_cons.
    destruct (decide (name i = n)) as [<-|Hne].
    + rewrite lookup_insert_eq. split; [intros _; by left; left|by eauto].
    + rewrite lookup_insert_ne by done. split; [intros [?|?]; eauto|].
      intros [[?|?]|?]; [congruence|by left|by right].
Qed.

Lemma foldl_insert_value (inputs : list NodeArg) v s (d : gmap string ndarray) n a :
  foldl (λ acc i, <[name i := shaped i v s]> acc) d inputs !! n = Some a →
  d !! n = Some a ∨ a = np_array1 [v; s] ∨ a = np_array2 [v; s].
Proof.
  revert d. induction inputs as [|i inputs IH]; intros d; simpl; [by left|].
  intros H. apply IH in H as [H|H]; [|by right].
  destruct (decide (name i = n)) as [<-|Hne].
  - rewrite lookup_insert_eq in H. injection H as <-. right. unfold shaped.
    destruct (decide _); [by left|by right].
  - rewrite lookup_insert_ne in H by done. by left.
Qed.

(** ** [run_inference] of Conjuagation_APP.py, path by path *)

Lemma run_inference_except_spec e lo w :
  App.run_inference_except e (lo, w) = ((lo, cleaned lo w), inr (Failed (exc_str e))).
Proof.
  destruct lo as [[q|]]; unfold App.run_inference_except, cleaned, os_unlink;
    run_M; [|done].
  destruct (decide (is_Some (files w !! q))) as [Hq|Hq]; simpl.
  - destruct (decide (q ∈ undeletable w)) as [Hu|Hu]; simpl.
    + rewrite decide_False by (intros [_ ?]; done). done.
    + by rewrite decide_True.
  - rewrite decide_False by (intros [? _]; done). done.
Qed.

Lemma cleaned_calls lo w : ort_calls (cleaned lo w) = ort_calls w.
Proof. unfold cleaned. destruct (model_path lo); [|done]. by destruct (decide _). Qed.

Section AppPaths.
Context (env : Env) (model_bytes : list Byte.byte) (volume impeller_speed : float).
Context (l : Locals) (w : World) (p : string) (rest : list string) (session : Session).
Hypothesis Htmp : first_free (files w) ".onnx" (tmp_names w) = Some (p, rest).
Hypothesis Hparse : ort_parse env model_bytes = Some session.

Let output_names := name <$> get_outputs session.
Let input_names := name <$> get_inputs session.

(** The [return] of line 120: nothing is cleaned up. *)
Lemma App_run_rejected message :
  App.fill_input_dict (get_inputs session) volume impeller_speed ∅ = inl message →
  App.run_inference env model_bytes volume impeller_speed (l, w) =
    ((l, written w p model_bytes rest), inr (Failed message)).
Proof.
  intros Hfill. unfold App.run_inference, App.run_inference_try. run_M.
  unfold NamedTemporaryFile_write, InferenceSession. run_M.
  rewrite Htmp. simpl. rewrite lookup_insert_eq, Hparse. simpl.
  by rewrite Hfill.
Qed.

(** The runtime answers and the file can be removed. *)
Lemma App_run_success input_dict outputs :
  App.fill_input_dict (get_inputs session) volume impeller_speed ∅ = inr input_dict →
  run session (Some output_names) input_dict = inr outputs →
  p ∉ undeletable w →
  App.run_inference env model_bytes volume impeller_speed (l, w) =
    ((l, removed (called (written w p model_bytes rest) (Some output_names) input_dict) p),
     inr (Succeeded (input_names, input_dict, output_names, outputs))).
Proof.
  intros Hfill Hrun Hdel. unfold App.run_inference, App.run_inference_try. run_M.
  unfold NamedTemporaryFile_write, InferenceSession, session_run, os_unlink. run_M.
  rewrite Htmp. simpl. rewrite lookup_insert_eq, Hparse. simpl.
  rewrite Hfill. simpl. fold output_names. rewrite Hrun. simpl.
  rewrite lookup_insert_eq.
  destruct (decide (is_Some (Some model_bytes))) as [_|[]]; [|by eexists].
  by destruct (decide (p ∈ undeletable w)).
Qed.

(** Once the dictionary is filled, the runtime is called, once, whatever
    follows. *)
Lemma App_run_calls input_dict :
  App.fill_input_dict (get_inputs session) volume impeller_speed ∅ = inr input_dict →
  ∃ w' r,
    App.run_inference env model_bytes volume impeller_speed (l, w) = ((l, w'), inr r) ∧
    ort_calls w' = (ort_calls w ++ [(Some output_names, input_dict)])%list.
Proof.
  intros Hfill. unfold App.run_inference, App.run_inference_try. run_M.
  unfold NamedTemporaryFile_write, InferenceSession, session_run, os_unlink. run_M.
  rewrite Htmp. simpl. rewrite lookup_insert_eq, Hparse. simpl.
  rewrite Hfill. simpl. fold output_names.
  destruct (run session (Some output_names) input_dict) as [msg|outputs]; simpl.
  - rewrite run_inference_except_spec. eexists _, _. split; [done|].
    by rewrite cleaned_calls.
  - rewrite lookup_insert_eq.
    destruct (decide (is_Some (Some model_bytes))) as [_|[]]; [|by eexists].
    destruct (decide (p ∈ undeletable w)); simpl; [|by eauto].
    rewrite run_inference_except_spec. eexists _, _. split; [done|].
    by rewrite cleaned_calls.
Qed.

End AppPaths.

(** What a successful call went through. *)
Lemma App_try_success_inv env model_bytes volume impeller_speed w st payload :
  App.run_inference_try env model_bytes volume impeller_speed (no_locals, w)
    = (st, inr (Succeeded payload)) →
  ∃ p rest session input_dict outputs,
    first_free (files w) ".onnx" (tmp_names w) = Some (p, rest) ∧
    ort_parse env model_bytes = Some session ∧
    App.fill_input_dict (get_inputs session) volume impeller_speed ∅ = inr input_dict ∧
    run session (Some (name <$> get_outputs session)) input_dict = inr outputs ∧
    (p ∉ undeletable w) ∧
    payload = (name <$> get_inputs session, input_dict,
               name <$> get_outputs session, outputs) ∧
    st.2 = removed (called (written w p model_bytes rest)
                      (Some (name <$> get_outputs session)) input_dict) p.
Proof.
  unfold App.run_inference_try, NamedTemporaryFile_write, InferenceSession,
    session_run, os_unlink. run_M.
  destruct (first_free (files w) ".onnx" (tmp_names w)) as [[p rest]|]; simpl;
    [|discriminate].
  rewrite lookup_insert_eq.
  destruct (ort_parse env model_bytes) as [session|]; simpl; [|discriminate].
  destruct (App.fill_input_dict (get_inputs session) volume impeller_speed ∅)
    as [message|input_dict] eqn:Hfill; simpl; [discriminate|].
  destruct (run session (Some (name <$> get_outputs session)) input_dict)
    as [message|outputs] eqn:Hrun; simpl; [discriminate|].
  rewrite lookup_insert_eq.
  destruct (decide (is_Some (Some model_bytes))) as [_|[]]; [|by eexists].
  destruct (decide (p ∈ undeletable w)) as [|Hdel]; simpl; [discriminate|].
  intros [= <- <-]. by exists p, rest, session, input_dict, outputs.
Qed.

Lemma App_run_success_inv env model_bytes volume impeller_speed l w st payload :
  App.run_inference env model_bytes volume impeller_speed (l, w)
    = (st, inr (Succeeded payload)) →
  ∃ p rest session input_dict outputs,
    first_free (files w) ".onnx" (tmp_names w) = Some (p, rest) ∧
    ort_parse env model_bytes = Some session ∧
    App.fill_input_dict (get_inputs session) volume impeller_speed ∅ = inr input_dict ∧
    run session (Some (name <$> get_outputs session)) input_dict = inr outputs ∧
    (p ∉ undeletable w) ∧
    payload = (name <$> get_inputs session, input_dict,
               name <$> get_outputs session, outputs) ∧
    st = (l, removed (called (written w p model_bytes rest)
                        (Some (name <$> get_outputs session)) input_dict) p).
Proof.
  unfold App.run_inference, call, try_except.
  destruct (App.run_inference_try env model_bytes volume impeller_speed (no_locals, w))
    as [[lo w1] [e|r]] eqn:Htry.
  - rewrite run_inference_except_spec. discriminate.
  - intros [= <- ->]. apply App_try_success_inv in Htry
      as (p & rest & session & d & outs & ? & ? & ? & ? & ? & ? & Hw).
    simpl in Hw. subst w1. by exists p, rest, session, d, outs.
Qed.

(** [run_inference] returns a pair on every path: no exception leaves it. *)
Lemma App_run_inference_returns env model_bytes volume impeller_speed l w :
  ∃ w' r, App.run_inference env model_bytes volume impeller_speed (l, w) = ((l, w'), inr r).
Proof.
  unfold App.run_inference, call, try_except.
  destruct (App.run_inference_try env model_bytes volume impeller_speed (no_locals, w))
    as [[lo w1] [e|r]].
  - rewrite run_inference_except_spec. eauto.
  - eauto.
Qed.

(** ** [run_inference] of Conjuagation_APP_V2.py, path by path *)

Section V2Paths.
Context (env : Env) (path : string) (volume impeller_speed : float).
Context (l : Locals) (w : World).

Lemma V2_run_inference_returns :
  ∃ w' r, V2.run_inference env path volume impeller_speed (l, w) = ((l, w'), inr r).
Proof.
  unfold V2.run_inference, InferenceSession, session_run, list_getitem. run_M.
  destruct (files w !! path) as [bytes|]; simpl; [|by eauto].
  destruct (ort_parse env bytes) as [session|]; simpl; [|by eauto].
  destruct (name <$> get_inputs session) as [|first others]; simpl; [by eauto|].
  destruct (run session None _); simpl; eauto.
Qed.

Context (bytes : list Byte.byte) (session : Session).
Hypothesis Hfile : files w !! path = Some bytes.
Hypothesis Hparse : ort_parse env bytes = Some session.

(** Whatever the declared rank of the first input, the runtime is called
    with the one-row array bound to it. *)
Lemma V2_run_calls first others :
  get_inputs session = first :: others →
  ∃ r,
    V2.run_inference env path volume impeller_speed (l, w) =
      ((l, called w None {[ name first := np_array2 [volume; impeller_speed] ]}), inr r) ∧
    r = match run session None {[ name first := np_array2 [volume; impeller_speed] ]} with
        | inl message => Failed message
        | inr outputs =>
            Succeeded (name <$> get_inputs session,
                       {[ name first := np_array2 [volume; impeller_speed] ]},
                       get_outputs session, outputs)
        end.
Proof.
  intros Hin. unfold V2.run_inference, InferenceSession, session_run, list_getitem.
  run_M. rewrite Hfile, Hparse. simpl. rewrite Hin. simpl.
  destruct (run session None _); simpl; eauto.
Qed.

End V2Paths.

Lemma V2_run_success_inv env path volume impeller_speed l w st payload :
  V2.run_inference env path volume impeller_speed (l, w) = (st, inr (Succeeded payload)) →
  ∃ bytes session first others outputs,
    files w !! path = Some bytes ∧
    ort_parse env bytes = Some session ∧
    get_inputs session = first :: others ∧
    run session None {[ name first := np_array2 [volume; impeller_speed] ]} = inr outputs ∧
    payload = (name <$> get_inputs session,
               {[ name first := np_array2 [volume; impeller_speed] ]},
               get_outputs session, outputs) ∧
    st = (l, called w None {[ name first := np_array2 [volume; impeller_speed] ]}).
Proof.
  unfold V2.run_inference, InferenceSession, session_run, list_getitem. run_M.
  destruct (files w !! path) as [bytes|]; simpl; [|discriminate].
  destruct (ort_parse env bytes) as [session|] eqn:Hparse; simpl; [|discriminate].
  destruct (get_inputs session) as [|first others] eqn:Hin; simpl; [discriminate|].
  destruct (run session None _) as [message|outputs] eqn:Hrun; simpl; [discriminate|].
  intros [= <- <-]. exists bytes, session, first, others, outputs.
  repeat split; try done. by rewrite Hin.
Qed.

(** ** The temporary file *)

(** C1, where the code departs from the claim.  The claim wants the
    temporary model file gone when [run_inference] returns, on every exit
    path.  On the path of an unsupported shape it is not: when a declared
    input has a rank other than 1 or 2, [run_inference] of
    Conjuagation_APP.py returns its failure pair through line 120, and the
    file that this call created (it did not exist before) is still on disk
    with the model bytes in it. *)
Theorem run_inference_rejected_shape_keeps_tmp_file
    env model_bytes volume impeller_speed l w p rest session
    (pre : list NodeArg) bad post :
  first_free (files w) ".onnx" (tmp_names w) = Some (p, rest) →
  ort_parse env model_bytes = Some session →
  get_inputs session = (pre ++ bad :: post)%list →
  Forall supported pre → ¬ supported bad →
  ∃ w' message,
    App.run_inference env model_bytes volume impeller_speed (l, w)
      = ((l, w'), inr (Failed message)) ∧
    files w !! p = None ∧
    files w' !! p = Some model_bytes.
Proof.
  intros Htmp Hparse Hin Hpre Hbad.
  eexists _, _. split; [|split].
  - eapply App_run_rejected; [done..|].
    rewrite Hin. by apply fill_input_dict_unsupported.
  - by eapply first_free_fresh.
  - simpl. apply lookup_insert_eq.
Qed.

Lemma run_inference_rejected_shape_keeps_tmp_file_witness :
  ∃ w' message,
    App.run_inference Demo.env [Byte.x03] 1 1 (no_locals, Demo.world)
      = ((no_locals, w'), inr (Failed message)) ∧
    files Demo.world !! "/tmp/tmpa1b2c3d4.onnx" = None ∧
    files w' !! "/tmp/tmpa1b2c3d4.onnx" = Some [Byte.x03].
Proof.
  apply (run_inference_rejected_shape_keeps_tmp_file Demo.env [Byte.x03] 1 1
           no_locals Demo.world "/tmp/tmpa1b2c3d4.onnx" ["e5f6g7h8"] Demo.rank3
           [] {| name := "input"; shape := [DimInt 2; DimInt 2; DimInt 2] |} []).
  - reflexivity.
  - reflexivity.
  - reflexivity.
  - constructor.
  - unfold supported. simpl. lia.
Defined.

(** On the two other paths the file is removed: after a successful run,
    and after an exception when the operating system lets the file go. *)
Lemma run_inference_success_removes_tmp_file
    env model_bytes volume impeller_speed l w st payload :
  App.run_inference env model_bytes volume impeller_speed (l, w)
    = (st, inr (Succeeded payload)) →
  files st.2 = files w.
Proof.
  intros (p & rest & session & d & outs & Htmp & _ & _ & _ & _ & _ & ->)%App_run_success_inv.
  simpl. rewrite delete_insert_eq. apply delete_id. by eapply first_free_fresh.
Qed.

Lemma run_inference_exception_removes_tmp_file
    env model_bytes volume impeller_speed l w lo w1 e p :
  App.run_inference_try env model_bytes volume impeller_speed (no_locals, w)
    = ((lo, w1), inl e) →
  model_path lo = Some p → p ∉ undeletable w1 →
  ∃ w', App.run_inference env model_bytes volume impeller_speed (l, w)
          = ((l, w'), inr (Failed (exc_str e))) ∧
        files w' !! p = None.
Proof.
  intros Htry Hp Hdel. exists (cleaned lo w1). split.
  - unfold App.run_inference, call, try_except. rewrite Htry.
    by rewrite run_inference_except_spec.
  - unfold cleaned. rewrite Hp.
    destruct (decide _) as [_|Hno]; [apply lookup_delete_eq|].
    apply eq_None_not_Some. intros ?. by apply Hno.
Qed.

(** ** Which declared inputs are bound *)

(** C2, the claim as it is written fails on Conjuagation_APP.py: the loop
    of lines 106-122 binds every declared input.  A model that declares
    "volume" and "speed" gets both bound. *)
Lemma App_binds_every_declared_input :
  ∃ w' input_dict output_names outputs,
    App.run_inference Demo.env [Byte.x04] 1 1 (no_locals, Demo.world)
      = ((no_locals, w'),
         inr (Succeeded (["volume"; "speed"], input_dict, output_names, outputs))) ∧
    input_dict !! "speed" = Some (np_array2 [1; 1]%float).
Proof.
  eexists _, _, _, _. split.
  - eapply (App_run_success Demo.env [Byte.x04] 1 1 no_locals Demo.world
              "/tmp/tmpa1b2c3d4.onnx" ["e5f6g7h8"] Demo.two_inputs);
      [reflexivity..|vm_compute; reflexivity|set_solver].
  - reflexivity.
Qed.

(** The loop assigns in the order of the declaration, so the binding of a
    name is the array of the last input declared under it. *)
Lemma foldl_insert_keeps (inputs : list NodeArg) v s (d : gmap string ndarray) n :
  n ∉ name <$> inputs →
  foldl (λ acc i, <[name i := shaped i v s]> acc) d inputs !! n = d !! n.
Proof.
  revert d. induction inputs as [|i inputs IH]; intros d Hn; simpl; [done|].
  rewrite fmap_cons, not_elem_of_cons in Hn. destruct Hn as [Hne Hn].
  rewrite IH by done. by rewrite lookup_insert_ne.
Qed.

Lemma foldl_insert_last (pre : list NodeArg) i post v s (d : gmap string ndarray) :
  name i ∉ name <$> post →
  foldl (λ acc i, <[name i := shaped i v s]> acc) d (pre ++ i :: post) !! name i
    = Some (shaped i v s).
Proof.
  intros Hlast. rewrite foldl_app. simpl.
  rewrite foldl_insert_keeps by done. apply lookup_insert_eq.
Qed.

(** C2, amended.  On success, [run_inference] of Conjuagation_APP.py (and of
    GUI_Conjuagation.py, which is the same text) has bound every input that
    the session declares, and no other name: an input of declared rank 1 to
    the one-dimensional array of the two scalars, an input of declared
    rank 2 to the one-row array of them (for a name declared more than once,
    the last declaration counts).  [run_inference] of
    Conjuagation_APP_V2.py has bound the first declared input only, to the
    one-row array, and no other name. *)
Theorem run_inference_bound_inputs env volume impeller_speed l w st input_names input_dict :
  (∀ model_bytes output_names outputs,
     App.run_inference env model_bytes volume impeller_speed (l, w)
       = (st, inr (Succeeded (input_names, input_dict, output_names, outputs))) →
     ∃ session,
       ort_parse env model_bytes = Some session ∧
       input_names = name <$> get_inputs session ∧
       (∀ n, is_Some (input_dict !! n) ↔ n ∈ name <$> get_inputs session) ∧
       (∀ (pre : list NodeArg) input_info post,
          get_inputs session = (pre ++ input_info :: post)%list →
          name input_info ∉ name <$> post →
          (length (shape input_info) = 1%nat ∧
           input_dict !! name input_info = Some (np_array1 [volume; impeller_speed])) ∨
          (length (shape input_info) = 2%nat ∧
           input_dict !! name input_info = Some (np_array2 [volume; impeller_speed]))) ∧
       (∀ n a, input_dict !! n = Some a →
          a = np_array1 [volume; impeller_speed] ∨
          a = np_array2 [volume; impeller_speed])) ∧
  (∀ path output_args outputs,
     V2.run_inference env path volume impeller_speed (l, w)
       = (st, inr (Succeeded (input_names, input_dict, output_args, outputs))) →
     ∃ bytes session first others,
       files w !! path = Some bytes ∧
       ort_parse env bytes = Some session ∧
       get_inputs session = first :: others ∧
       input_names = name <$> get_inputs session ∧
       input_dict = {[ name first := np_array2 [volume; impeller_speed] ]} ∧
       (∀ n, n ≠ name first → input_dict !! n = None)).
Proof.
  split.
  - intros model_bytes output_names outputs
      (p & rest & session & d & outs & _ & Hparse & Hfill & _ & _ & Hpay & _)%App_run_success_inv.
    injection Hpay as -> -> _ _.
    apply fill_input_dict_inr in Hfill as [Hsupported ->].
    exists session. split; [done|]. split; [done|]. split; [|split].
    + intros n. rewrite foldl_insert_lookup, lookup_empty. split; [|by left].
      intros [?|[? ?]]; done.
    + intros pre input_info post Hin Hlast. rewrite Hin.
      rewrite foldl_insert_last by done.
      rewrite Hin, Forall_app, Forall_cons in Hsupported.
      destruct Hsupported as (_ & [Hrank|Hrank] & _); unfold shaped.
      * left. by rewrite decide_True.
      * right. rewrite decide_False by lia. done.
    + intros n a [Hn|Hn]%foldl_insert_value; [|done]. by rewrite lookup_empty in Hn.
  - intros path output_args outputs
      (bytes & session & first & others & outs & Hfile & Hparse & Hin & _ & Hpay & _)%V2_run_success_inv.
    injection Hpay as -> -> _ _.
    exists bytes, session, first, others. repeat split; try done.
    intros n Hn. by apply lookup_singleton_ne.
Qed.

Lemma run_inference_bound_inputs_witness :
  (∃ session,
     ort_parse Demo.env [Byte.x04] = Some session ∧
     ["volume"; "speed"] = name <$> get_inputs session ∧
     is_Some ((<["speed" := np_array2 [1; 1]%float]>
                 (<["volume" := np_array1 [1; 1]%float]> ∅) : gmap string ndarray)
              !! "speed")) ∧
  (∃ first,
     get_inputs Demo.rank2 = [first] ∧
     ({[ "input" := np_array2 [1; 1]%float ]} : gmap string ndarray)
       = {[ name first := np_array2 [1; 1]%float ]}).
Proof.
  split.
  - destruct (proj1 (run_inference_bound_inputs Demo.env 1 1 no_locals Demo.world
                       (no_locals, after_first_run_two_inputs)
                       ["volume"; "speed"]
                       (<["speed" := np_array2 [1; 1]%float]>
                          (<["volume" := np_array1 [1; 1]%float]> ∅)))
                [Byte.x04] ["output"] [Demo.five])
      as (session & Hparse & Hnames & Hdom & _).
    + eapply (App_run_success Demo.env [Byte.x04] 1 1 no_locals Demo.world
                "/tmp/tmpa1b2c3d4.onnx" ["e5f6g7h8"] Demo.two_inputs);
        [reflexivity|reflexivity|reflexivity|reflexivity|set_solver].
    + exists session. split; [done|]. split; [done|].
      apply Hdom. rewrite <- Hnames.
      apply list_elem_of_further, list_elem_of_here.
  - destruct (proj2 (run_inference_bound_inputs Demo.env 1 1 no_locals
                       (Worlds.downloaded [Byte.x02])
                       (no_locals,
                        called (Worlds.downloaded [Byte.x02]) None
                          {[ "input" := np_array2 [1; 1]%float ]})
                       ["input"] {[ "input" := np_array2 [1; 1]%float ]})
                "/tmp/tmpmodel.onnx" (get_outputs Demo.rank2) [Demo.five])
      as (bytes & session & first & others & Hfile & Hparse & Hin & _ & Hdict & _).
    + destruct (V2_run_calls Demo.env "/tmp/tmpmodel.onnx" 1 1 no_locals
                  (Worlds.downloaded [Byte.x02]) [Byte.x02] Demo.rank2
                  eq_refl eq_refl _ _ eq_refl) as (r & -> & ->).
      reflexivity.
    + injection Hfile as <-. injection Hparse as <-.
      injection Hin as <- <-. by eexists.
Defined.

(** ** The array that is built *)

(** Conjuagation_APP.py with a sole declared input: the dictionary that the
    loop builds and the call that follows. *)
Lemma App_sole_input_call env model_bytes volume impeller_speed l w p rest session input_info :
  first_free (files w) ".onnx" (tmp_names w) = Some (p, rest) →
  ort_parse env model_bytes = Some session →
  get_inputs session = [input_info] →
  supported input_info →
  ∃ w' r,
    App.run_inference env model_bytes volume impeller_speed (l, w) = ((l, w'), inr r) ∧
    ort_calls w' =
      (ort_calls w ++ [(Some (name <$> get_outputs session),
                        {[ name input_info := shaped input_info volume impeller_speed ]})])%list.
Proof.
  intros Htmp Hparse Hin Hsup.
  eapply App_run_calls; [done..|]. rewrite Hin.
  rewrite fill_input_dict_supported by (by constructor). done.
Qed.

(** C3, the claim as it is written fails on Conjuagation_APP_V2.py, whose
    line 74 builds the one-row array whatever the model declares: for a
    model whose sole input has shape [2], the array passed to the runtime
    has shape (1, 2). *)
Lemma V2_rank1_input_gets_one_row_array :
  get_inputs Demo.rank1 = [{| name := "input"; shape := [DimInt 2] |}] ∧
  ∃ w' r a,
    V2.run_inference Demo.env "/tmp/tmpmodel.onnx" 1 1
        (no_locals, Worlds.downloaded [Byte.x01]) = ((no_locals, w'), inr r) ∧
    ort_calls w' = [(None, {[ "input" := a ]})] ∧
    arr_shape a = [1%nat; 2%nat].
Proof.
  split; [reflexivity|].
  destruct (V2_run_calls Demo.env "/tmp/tmpmodel.onnx" 1 1 no_locals
              (Worlds.downloaded [Byte.x01]) [Byte.x01] Demo.rank1
              eq_refl eq_refl _ _ eq_refl) as (r & Hrun & _).
  by eexists _, r, _.
Qed.

(** C3, amended.  For a model whose sole declared input has rank 1,
    [run_inference] of Conjuagation_APP.py (and of GUI_Conjuagation.py)
    passes to the runtime the one-dimensional array
    [float32(volume), float32(impeller_speed)], in that order;
    [run_inference] of Conjuagation_APP_V2.py passes the one-row array
    [[float32(volume), float32(impeller_speed)]] for any declared shape. *)
Theorem rank1_input_array env volume impeller_speed l w session input_info :
  get_inputs session = [input_info] →
  length (shape input_info) = 1%nat →
  (∀ model_bytes p rest,
     first_free (files w) ".onnx" (tmp_names w) = Some (p, rest) →
     ort_parse env model_bytes = Some session →
     ∃ w' r,
       App.run_inference env model_bytes volume impeller_speed (l, w) = ((l, w'), inr r) ∧
       ort_calls w' =
         (ort_calls w ++
          [(Some (name <$> get_outputs session),
            {[ name input_info :=
                 {| arr_shape := [2%nat];
                    arr_data := [float32 volume; float32 impeller_speed] |} ]})])%list) ∧
  (∀ path bytes,
     files w !! path = Some bytes →
     ort_parse env bytes = Some session →
     ∃ w' r,
       V2.run_inference env path volume impeller_speed (l, w) = ((l, w'), inr r) ∧
       ort_calls w' =
         (ort_calls w ++
          [(None,
            {[ name input_info :=
                 {| arr_shape := [1%nat; 2%nat];
                    arr_data := [float32 volume; float32 impeller_speed] |} ]})])%list).
Proof.
  intros Hin Hrank. split.
  - intros model_bytes p rest Htmp Hparse.
    destruct (App_sole_input_call env model_bytes volume impeller_speed l w p rest
                session input_info Htmp Hparse Hin) as (w' & r & Hrun & Hcalls);
      [by left|].
    exists w', r. split; [done|]. rewrite Hcalls. unfold shaped.
    by rewrite decide_True.
  - intros path bytes Hfile Hparse.
    destruct (V2_run_calls env path volume impeller_speed l w bytes session
                Hfile Hparse _ _ Hin) as (r & Hrun & _).
    by eexists _, r.
Qed.

Lemma rank1_input_array_witness :
  ∃ w' r,
    App.run_inference Demo.env [Byte.x01] 2.5 100 (no_locals, Demo.world)
      = ((no_locals, w'), inr r) ∧
    ort_calls w' =
      [(Some ["output"],
        {[ "input" := {| arr_shape := [2%nat];
                         arr_data := [float32 2.5; float32 100] |} ]})].
Proof.
  exact (proj1 (rank1_input_array Demo.env 2.5 100 no_locals Demo.world Demo.rank1
                  {| name := "input"; shape := [DimInt 2] |} eq_refl eq_refl)
           [Byte.x01] "/tmp/tmpa1b2c3d4.onnx" ["e5f6g7h8"] eq_refl eq_refl).
Defined.

(** The two values of the scenario are binary32 numbers already: the cast
    keeps them as they are. *)
Lemma float32_scenario_exact :
  float_of_float32 (float32 2.5) = 2.5%float ∧
  float_of_float32 (float32 100) = 100%float ∧
  SpecFloat.valid_binary 24 128 (float32 2.5) = true ∧
  SpecFloat.valid_binary 24 128 (float32 100) = true.
Proof. vm_compute. repeat split. Qed.

(** The cast does round: the Python float 0.1 is not a binary32 number. *)
Lemma float32_rounds :
  float_of_float32 (float32 0x1.999999999999ap-4) ≠ 0x1.999999999999ap-4%float.
Proof. intros H. apply (f_equal Prim2SF) in H. vm_compute in H. discriminate. Qed.

(** C4.  For a model whose sole declared input has rank 2, [run_inference]
    of Conjuagation_APP.py (and of GUI_Conjuagation.py) and of
    Conjuagation_APP_V2.py pass to the runtime the one-row array
    [[float32(volume), float32(impeller_speed)]], bound to the name of
    that input.  For volume 2.5 and impeller speed 100.0 its two elements
    are binary32 numbers and equal 2.5 and 100.0. *)
Theorem rank2_input_array env volume impeller_speed l w session input_info :
  get_inputs session = [input_info] →
  length (shape input_info) = 2%nat →
  let bound : gmap string ndarray :=
    {[ name input_info :=
         {| arr_shape := [1%nat; 2%nat];
            arr_data := [float32 volume; float32 impeller_speed] |} ]} in
  (∀ model_bytes p rest,
     first_free (files w) ".onnx" (tmp_names w) = Some (p, rest) →
     ort_parse env model_bytes = Some session →
     ∃ w' r,
       App.run_inference env model_bytes volume impeller_speed (l, w) = ((l, w'), inr r) ∧
       ort_calls w' = (ort_calls w ++ [(Some (name <$> get_outputs session), bound)])%list) ∧
  (∀ path bytes,
     files w !! path = Some bytes →
     ort_parse env bytes = Some session →
     ∃ w' r,
       V2.run_inference env path volume impeller_speed (l, w) = ((l, w'), inr r) ∧
       ort_calls w' = (ort_calls w ++ [(None, bound)])%list) ∧
  (volume = 2.5%float → impeller_speed = 100%float →
     ∃ x y,
       bound = {[ name input_info :=
                    {| arr_shape := [1%nat; 2%nat]; arr_data := [x; y] |} ]} ∧
       float_of_float32 x = 2.5%float ∧ float_of_float32 y = 100%float ∧
       SpecFloat.valid_binary 24 128 x = true ∧
       SpecFloat.valid_binary 24 128 y = true).
Proof.
  intros Hin Hrank bound. split; [|split].
  - intros model_bytes p rest Htmp Hparse.
    destruct (App_sole_input_call env model_bytes volume impeller_speed l w p rest
                session input_info Htmp Hparse Hin) as (w' & r & Hrun & Hcalls);
      [by right|].
    exists w', r. split; [done|]. rewrite Hcalls. unfold shaped.
    rewrite decide_False by lia. done.
  - intros path bytes Hfile Hparse.
    destruct (V2_run_calls env path volume impeller_speed l w bytes session
                Hfile Hparse _ _ Hin) as (r & Hrun & _).
    by eexists _, r.
  - intros -> ->. exists (float32 2.5), (float32 100).
    split; [done|]. apply float32_scenario_exact.
Qed.

Lemma rank2_input_array_witness :
  ∃ w' r,
    V2.run_inference Demo.env "/tmp/tmpmodel.onnx" 2.5 100
        (no_locals, Worlds.downloaded [Byte.x02]) = ((no_locals, w'), inr r) ∧
    ort_calls w' =
      [(None, {[ "input" := {| arr_shape := [1%nat; 2%nat];
                               arr_data := [float32 2.5; float32 100] |} ]})].
Proof.
  exact (proj1 (proj2 (rank2_input_array Demo.env 2.5 100 no_locals
                         (Worlds.downloaded [Byte.x02]) Demo.rank2
                         {| name := "input"; shape := [DimInt 1; DimInt 2] |}
                         eq_refl eq_refl))
           "/tmp/tmpmodel.onnx" [Byte.x02] eq_refl eq_refl).
Defined.

(** ** Unsupported shapes *)

(** [repr] at work: a name that holds a single quote goes between double
    quotes, and a negative size keeps its sign. *)
Lemma repr_shape_quotes :
  repr_shape [DimSym "N'"; DimInt 2; DimInt (-1); DimNone]
    = "[" ++ String double_quote ("N'" ++ String double_quote ", 2, -1, None]").
Proof. reflexivity. Qed.




(** ** What is passed to, and taken from, the runtime *)

(** C7, the claim as it is written fails on Conjuagation_APP_V2.py: line 76
    passes [None], not the list of the declared output names. *)
Lemma V2_passes_None_for_output_names :
  ∃ w' payload feed,
    V2.run_inference Demo.env "/tmp/tmpmodel.onnx" 1 1
        (no_locals, Worlds.downloaded [Byte.x02])
      = ((no_locals, w'), inr (Succeeded payload)) ∧
    ort_calls w' = [(None, feed)] ∧
    name <$> get_outputs Demo.rank2 = ["output"].
Proof.
  destruct (V2_run_calls Demo.env "/tmp/tmpmodel.onnx" 1 1 no_locals
              (Worlds.downloaded [Byte.x02]) [Byte.x02] Demo.rank2
              eq_refl eq_refl _ _ eq_refl) as (r & Hrun & ->).
  by eexists _, _, _.
Qed.

(** C7, amended.  A successful [run_inference] of Conjuagation_APP.py (and
    GUI_Conjuagation.py) has called [run] once, with the names of all the
    declared outputs in their declared order; one of Conjuagation_APP_V2.py
    has called it once with [None] in that place.  Both return the list of
    arrays that this call answered, as it is. *)
Theorem run_inference_outputs env volume impeller_speed l w st input_names input_dict outputs :
  (∀ model_bytes output_names,
     App.run_inference env model_bytes volume impeller_speed (l, w)
       = (st, inr (Succeeded (input_names, input_dict, output_names, outputs))) →
     ∃ session,
       ort_parse env model_bytes = Some session ∧
       output_names = name <$> get_outputs session ∧
       ort_calls st.2 = (ort_calls w ++ [(Some output_names, input_dict)])%list ∧
       run session (Some output_names) input_dict = inr outputs) ∧
  (∀ path output_args,
     V2.run_inference env path volume impeller_speed (l, w)
       = (st, inr (Succeeded (input_names, input_dict, output_args, outputs))) →
     ∃ bytes session,
       files w !! path = Some bytes ∧
       ort_parse env bytes = Some session ∧
       output_args = get_outputs session ∧
       ort_calls st.2 = (ort_calls w ++ [(None, input_dict)])%list ∧
       run session None input_dict = inr outputs).
Proof.
  split.
  - intros model_bytes output_names
      (p & rest & session & d & outs & _ & Hparse & _ & Hrun & _ & Hpay & ->)%App_run_success_inv.
    injection Hpay as -> -> -> ->. by exists session.
  - intros path output_args
      (bytes & session & first & others & outs & Hfile & Hparse & _ & Hrun & Hpay & ->)%V2_run_success_inv.
    injection Hpay as -> -> -> ->. by exists bytes, session.
Qed.

Lemma run_inference_outputs_witness :
  ∃ session,
    ort_parse Demo.env [Byte.x02] = Some session ∧
    ["output"] = name <$> get_outputs session ∧
    ort_calls (removed (called (written Demo.world "/tmp/tmpa1b2c3d4.onnx" [Byte.x02]
                                  ["e5f6g7h8"])
                          (Some ["output"]) {[ "input" := np_array2 [1; 1]%float ]})
                 "/tmp/tmpa1b2c3d4.onnx")
      = ([] ++ [(Some ["output"], {[ "input" := np_array2 [1; 1]%float ]})])%list ∧
    run session (Some ["output"]) {[ "input" := np_array2 [1; 1]%float ]} = inr [Demo.five].
Proof.
  refine (proj1 (run_inference_outputs Demo.env 1 1 no_locals Demo.world
                   (no_locals,
                    removed (called (written Demo.world "/tmp/tmpa1b2c3d4.onnx" [Byte.x02]
                                       ["e5f6g7h8"])
                               (Some ["output"]) {[ "input" := np_array2 [1; 1]%float ]})
                      "/tmp/tmpa1b2c3d4.onnx")
                   ["input"] {[ "input" := np_array2 [1; 1]%float ]} [Demo.five])
            [Byte.x02] ["output"] _).
  eapply (App_run_success Demo.env [Byte.x02] 1 1 no_locals Demo.world
            "/tmp/tmpa1b2c3d4.onnx" ["e5f6g7h8"] Demo.rank2);
    [reflexivity|reflexivity|reflexivity|reflexivity|set_solver].
Defined.

(** ** The page *)

Lemma st_spec ev l w : st ev (l, w) = ((l, page_add w [ev]), inr ()).
Proof. reflexivity. Qed.

Lemma page_add_add w evs1 evs2 :
  page_add (page_add w evs1) evs2 = page_add w (evs1 ++ evs2)%list.
Proof. unfold page_add. simpl. by rewrite <- (assoc_L (++)). Qed.

Lemma for_each_st {A} (xs : list A) (body : A → M ()) (f : A → UiEvent) l w :
  (∀ x l w, body x (l, w) = ((l, page_add w [f x]), inr ())) →
  for_each xs body (l, w) = ((l, page_add w (f <$> xs)), inr ()).
Proof.
  intros Hbody. revert w. induction xs as [|x xs IH]; intros w; simpl.
  - unfold page_add. rewrite (right_id_L [] (++)). by destruct w.
  - run_M. rewrite Hbody, IH, page_add_add. done.
Qed.

(** ** Errors at the boundary *)

Lemma MODEL_OPTIONS_lookup k url l w :
  (k, url) ∈ V2.MODEL_OPTIONS →
  dict_getitem V2.MODEL_OPTIONS k (l, w) = ((l, w), inr url).
Proof.
  unfold V2.MODEL_OPTIONS. intros H.
  repeat (apply elem_of_cons in H as [[= -> ->]|H]; [reflexivity|]).
  by apply elem_of_nil in H.
Qed.

(** C6, where the code departs from the claim.  The claim wants every
    exception of an invocation caught and returned as a failure value.
    [run_inference] does so in the three files, but [main] of
    Conjuagation_APP_V2.py calls [download_model_from_github] inside a
    [try] that has a [finally] and no [except]: when the server answers
    with a status other than 200, the exception of line 25 leaves the [try],
    the [finally] of lines 66-68 reads [model_path], which was never bound,
    and the [UnboundLocalError] that this raises leaves [main].  Nothing is
    shown on the page beside the title. *)
Theorem V2_main_failed_download_raises env form url response l w :
  V2.button form = true →
  (V2.selected_model_name form, url) ∈ V2.MODEL_OPTIONS →
  requests_get env url = inr response →
  status_code response ≠ 200%Z →
  V2.main env form (l, w) =
    ((l, page_add w [StPageConfig "ONNX Model Inference";
                     StTitle "🧠 ONNX Model Inference from GitHub"]),
     inl {| exc_class := UnboundLocalError;
            exc_str := "cannot access local variable 'model_path' where it is not associated with a value" |}).
Proof.
  intros Hbutton Hurl Hget Hstatus.
  unfold V2.main, call. unfold mbind at 1 2, M_bind.
  rewrite !st_spec. rewrite page_add_add. unfold mbind at 1, M_bind.
  rewrite (MODEL_OPTIONS_lookup _ _ _ _ Hurl), Hbutton.
  unfold V2.download_model_from_github. run_M. rewrite Hget.
  by destruct (decide (status_code response = 200%Z)).
Qed.

Lemma V2_main_failed_download_raises_witness :
  V2.main Demo.env
    {| V2.selected_model_name := "800L to 2000L"; V2.volume := 1;
       V2.impeller_speed := 1; V2.button := true |} (no_locals, Demo.world) =
    ((no_locals, page_add Demo.world [StPageConfig "ONNX Model Inference";
                                      StTitle "🧠 ONNX Model Inference from GitHub"]),
     inl {| exc_class := UnboundLocalError;
            exc_str := "cannot access local variable 'model_path' where it is not associated with a value" |}).
Proof.
  apply (V2_main_failed_download_raises Demo.env _
           "https://raw.githubusercontent.com/yourusername/yourrepo/main/model_heat.onnx"
           {| status_code := 404; content := [] |}).
  - reflexivity.
  - simpl. set_solver.
  - reflexivity.
  - simpl. lia.
Defined.

(** X1.  The part of the claim that the code keeps: [run_inference] never
    raises, in any of the three files. *)
Lemma run_inference_never_raises env volume impeller_speed l w :
  (∀ model_bytes, ∃ w' r,
     App.run_inference env model_bytes volume impeller_speed (l, w) = ((l, w'), inr r)) ∧
  (∀ model_bytes, ∃ w' r,
     Gui.run_inference env model_bytes volume impeller_speed (l, w) = ((l, w'), inr r)) ∧
  (∀ path, ∃ w' r,
     V2.run_inference env path volume impeller_speed (l, w) = ((l, w'), inr r)).
Proof.
  split; [|split]; intros x.
  - apply App_run_inference_returns.
  - apply App_run_inference_returns.
  - apply V2_run_inference_returns.
Qed.

(** ** The display of the results *)

(** C8.  After a successful inference, let [first] be the first output
    array.  With fewer than five values in it, the display of
    Conjuagation_APP.py shows a warning and the flattened array, and that of
    Conjuagation_APP_V2.py shows a warning and one line per value; with five
    or more, both show the values at positions 0 to 4 under the labels
    Shear Rate, Power, Tip Speed, Reynolds Number and Power Number, in that
    order.  In each case the display finishes without an exception: an index
    beyond the length of the array would raise [IndexError], so none is
    read. *)
Theorem show_results_by_length env l w input_names input_dict output_names output_args
    outputs first others :
  outputs = first :: others →
  ((len (flatten first) < 5)%nat →
     App.show_results env (input_names, input_dict, output_names, outputs) (l, w) =
       ((l, page_add w
              [StSubheader "Results";
               StWarning "Output array doesn't contain enough values for all the requested parameters.";
               StWrite ("Available values: " ++ str_ndarray env (flatten first))]),
        inr ()) ∧
     V2.show_results env (input_names, input_dict, output_args, outputs) (l, w) =
       ((l, page_add w
              ([StSubheader "📊 Results";
                StWarning "Not enough outputs to label. Showing raw values:"]
               ++ (raw_line env <$> enumerate (arr_data first))
               ++ [csv_button env first])%list),
        inr ())) ∧
  ((5 ≤ len (flatten first))%nat →
     ∃ x0 x1 x2 x3 x4 more,
       arr_data first = x0 :: x1 :: x2 :: x3 :: x4 :: more ∧
       App.show_results env (input_names, input_dict, output_names, outputs) (l, w) =
         ((l, page_add w
                [StSubheader "Results";
                 StText ("Shear Rate: " ++ str_float32 env x0 ++ nl ++
                         "Power: " ++ str_float32 env x1 ++ nl ++
                         "Tip Speed: " ++ str_float32 env x2 ++ nl ++
                         "Reynolds Number: " ++ str_float32 env x3 ++ nl ++
                         "Power Number: " ++ str_float32 env x4)]),
          inr ()) ∧
       V2.show_results env (input_names, input_dict, output_args, outputs) (l, w) =
         ((l, page_add w
                [StSubheader "📊 Results";
                 StWrite ("**Shear Rate**: " ++ str_float32 env x0);
                 StWrite ("**Power**: " ++ str_float32 env x1);
                 StWrite ("**Tip Speed**: " ++ str_float32 env x2);
                 StWrite ("**Reynolds Number**: " ++ str_float32 env x3);
                 StWrite ("**Power Number**: " ++ str_float32 env x4);
                 csv_button env first]),
          inr ())).
Proof.
  intros ->. unfold len, flatten. simpl. split.
  - intros Hlen. split.
    + unfold App.show_results, list_getitem. run_M.
      unfold len, flatten. simpl.
      destruct (decide (5 ≤ length (arr_data first))%nat); [lia|].
      simpl. by rewrite ?st_spec, ?page_add_add.
    + unfold V2.show_results, list_getitem. run_M.
      unfold len, flatten. simpl.
      destruct (decide (5 ≤ length (arr_data first))%nat); [lia|].
      run_M.
      rewrite (for_each_st _ _ (raw_line env)) by (by intros [i val] ? ?).
      by rewrite ?st_spec, ?page_add_add.
  - intros Hlen.
    destruct (arr_data first) as [|x0 [|x1 [|x2 [|x3 [|x4 more]]]]] eqn:Hdata;
      simpl in Hlen; try lia.
    exists x0, x1, x2, x3, x4, more. split; [done|]. split.
    + unfold App.show_results, list_getitem, array_getitem. run_M.
      unfold len, flatten. simpl. rewrite Hdata. simpl.
      destruct (decide (5 ≤ S (S (S (S (S (length more))))))%nat); [|lia].
      run_M. by rewrite ?st_spec, ?page_add_add.
    + unfold V2.show_results, list_getitem, array_getitem. run_M.
      unfold len, flatten. simpl. rewrite Hdata. simpl.
      destruct (decide (5 ≤ S (S (S (S (S (length more))))))%nat); [|lia].
      run_M. rewrite ?st_spec, ?page_add_add. unfold csv_button. by rewrite Hdata.
Qed.

Lemma show_results_by_length_witness :
  App.show_results Demo.env (["input"], ∅, ["output"], [Demo.three])
      (no_locals, Demo.world) =
    ((no_locals,
      page_add Demo.world
        [StSubheader "Results";
         StWarning "Output array doesn't contain enough values for all the requested parameters.";
         StWrite ("Available values: " ++ str_ndarray Demo.env (flatten Demo.three))]),
     inr ()).
Proof.
  refine (proj1 (proj1 (show_results_by_length Demo.env no_locals Demo.world
                          ["input"] ∅ ["output"] [] [Demo.three] Demo.three []
                          eq_refl) _)).
  unfold len. simpl. lia.
Defined.

(** ** Two invocations in a row *)

(** C9.  When [run_inference] of Conjuagation_APP.py has succeeded, a second
    call in the world that the first one left, with the same model bytes,
    volume and impeller speed, returns the same pair: the same input names,
    input dictionary, output names and output arrays.  The second call
    draws another temporary name and the log of runtime calls has grown, but
    neither reaches the result.  (The second call needs a temporary name and
    a file that can be removed, as the first one did.) *)
Theorem run_inference_twice_same_outputs
    env model_bytes volume impeller_speed l w w1 payload p2 rest2 :
  App.run_inference env model_bytes volume impeller_speed (l, w)
    = ((l, w1), inr (Succeeded payload)) →
  first_free (files w1) ".onnx" (tmp_names w1) = Some (p2, rest2) →
  p2 ∉ undeletable w1 →
  ∃ w2, App.run_inference env model_bytes volume impeller_speed (l, w1)
          = ((l, w2), inr (Succeeded payload)).
Proof.
  intros Hfirst Htmp Hdel.
  (* what the first call went through: the session and the runtime's answer
     depend on the model bytes and on the two numbers only *)
  apply App_run_success_inv in Hfirst
    as (p & rest & session & d & outs & _ & Hparse & Hfill & Hrun & _ & -> & _).
  (* the second call writes the same bytes under the new name and reads
     them back *)
  eexists. by eapply App_run_success.
Qed.

Lemma run_inference_twice_same_outputs_witness :
  ∃ w2, App.run_inference Demo.env [Byte.x02] 1 1 (no_locals, after_first_run)
          = ((no_locals, w2),
             inr (Succeeded (["input"], {[ "input" := np_array2 [1; 1]%float ]},
                             ["output"], [Demo.five]))).
Proof.
  apply (run_inference_twice_same_outputs Demo.env [Byte.x02] 1 1 no_locals Demo.world
           after_first_run _ "/tmp/tmpe5f6g7h8.onnx" []).
  - eapply (App_run_success Demo.env [Byte.x02] 1 1 no_locals Demo.world
              "/tmp/tmpa1b2c3d4.onnx" ["e5f6g7h8"] Demo.rank2);
      [reflexivity|reflexivity|reflexivity|reflexivity|set_solver].
  - reflexivity.
  - simpl. set_solver.
Defined.

(** ** The exception path *)

(** C10.  When the body of the [try] of [run_inference] (Conjuagation_APP.py
    and GUI_Conjuagation.py) raises [e], the call returns the failure pair
    whose message is [str(e)].  The handler removes the temporary file when
    it can; when its own [os.unlink] raises, that exception is dropped, the
    world stays as the body left it, and the pair returned is still the one
    of [e]. *)
Theorem run_inference_reports_original_exception
    env model_bytes volume impeller_speed l w lo w1 e :
  App.run_inference_try env model_bytes volume impeller_speed (no_locals, w)
    = ((lo, w1), inl e) →
  App.run_inference env model_bytes volume impeller_speed (l, w)
    = ((l, cleaned lo w1), inr (Failed (exc_str e))) ∧
  Gui.run_inference env model_bytes volume impeller_speed (l, w)
    = ((l, cleaned lo w1), inr (Failed (exc_str e))) ∧
  (∀ p st' e', model_path lo = Some p →
     os_unlink p (lo, w1) = (st', inl e') → cleaned lo w1 = w1).
Proof.
  intros Htry. split; [|split].
  - unfold App.run_inference, call, try_except. rewrite Htry.
    by rewrite run_inference_except_spec.
  - unfold Gui.run_inference, App.run_inference, call, try_except. rewrite Htry.
    by rewrite run_inference_except_spec.
  - intros p st' e' Hp. unfold cleaned, os_unlink. rewrite Hp. run_M.
    destruct (decide (is_Some (files w1 !! p))) as [Hf|Hf].
    + destruct (decide (p ∈ undeletable w1)) as [Hu|Hu]; [|discriminate].
      intros _. rewrite decide_False; [done|]. by intros [_ ?].
    + intros _. rewrite decide_False; [done|]. by intros [? _].
Qed.

Lemma run_inference_reports_original_exception_witness :
  App.run_inference Demo.env [Byte.x09] 1 1 (no_locals, Worlds.locked)
    = ((no_locals,
        cleaned {| model_path := Some "/tmp/tmpa1b2c3d4.onnx" |}
          (written Worlds.locked "/tmp/tmpa1b2c3d4.onnx" [Byte.x09] ["e5f6g7h8"])),
       inr (Failed "[ONNXRuntimeError] : 7 : INVALID_PROTOBUF : Load model from /tmp/tmpa1b2c3d4.onnx failed:Protobuf parsing failed.")) ∧
  cleaned {| model_path := Some "/tmp/tmpa1b2c3d4.onnx" |}
    (written Worlds.locked "/tmp/tmpa1b2c3d4.onnx" [Byte.x09] ["e5f6g7h8"])
    = written Worlds.locked "/tmp/tmpa1b2c3d4.onnx" [Byte.x09] ["e5f6g7h8"].
Proof.
  pose proof (run_inference_reports_original_exception Demo.env [Byte.x09] 1 1
                no_locals Worlds.locked
                {| model_path := Some "/tmp/tmpa1b2c3d4.onnx" |}
                (written Worlds.locked "/tmp/tmpa1b2c3d4.onnx" [Byte.x09] ["e5f6g7h8"])
                {| exc_class := OrtError;
                   exc_str := "[ONNXRuntimeError] : 7 : INVALID_PROTOBUF : Load model from /tmp/tmpa1b2c3d4.onnx failed:Protobuf parsing failed." |}
                eq_refl) as (Happ & _ & Hkeep).
  split; [exact Happ|].
  eapply (Hkeep "/tmp/tmpa1b2c3d4.onnx"); [reflexivity|].
  reflexivity.
Defined.

(** * Further properties of the code *)

(** ** [run_inference] of Conjuagation_APP.py and the disk *)







(** X3.  When the runtime has answered but the temporary file cannot be
    removed, line 131 raises, and what [run_inference] returns is the failure
    pair of that [PermissionError]: the outputs of the runtime are lost and
    the file stays. *)
Theorem run_inference_unlink_failure_reported
    env model_bytes volume impeller_speed l w p rest session input_dict outputs :
  first_free (files w) ".onnx" (tmp_names w) = Some (p, rest) →
  ort_parse env model_bytes = Some session →
  App.fill_input_dict (get_inputs session) volume impeller_speed ∅ = inr input_dict →
  run session (Some (name <$> get_outputs session)) input_dict = inr outputs →
  p ∈ undeletable w →
  ∃ w',
    App.run_inference env model_bytes volume impeller_speed (l, w)
      = ((l, w'), inr (Failed ("[Errno 13] Permission denied: '" ++ p ++ "'"))) ∧
    files w' !! p = Some model_bytes ∧
    ort_calls w' = (ort_calls w ++ [(Some (name <$> get_outputs session), input_dict)])%list.
Proof.
  intros Htmp Hparse Hfill Hrun Hdel.
  unfold App.run_inference, App.run_inference_try. run_M.
  unfold NamedTemporaryFile_write, InferenceSession, session_run, os_unlink. run_M.
  rewrite Htmp. simpl. rewrite lookup_insert_eq, Hparse. simpl.
  rewrite Hfill. simpl. rewrite Hrun. simpl. rewrite lookup_insert_eq.
  destruct (decide (is_Some (Some model_bytes))) as [_|[]]; [|by eexists].
  destruct (decide (p ∈ undeletable w)); [|done]. simpl.
  rewrite run_inference_except_spec. eexists. split; [done|].
  unfold cleaned. simpl. rewrite decide_False by (by intros [_ ?]).
  simpl. by rewrite lookup_insert_eq.
Qed.

Lemma run_inference_unlink_failure_reported_witness :
  ∃ w',
    App.run_inference Demo.env [Byte.x02] 1 1 (no_locals, Worlds.locked)
      = ((no_locals, w'),
         inr (Failed "[Errno 13] Permission denied: '/tmp/tmpa1b2c3d4.onnx'")) ∧
    files w' !! "/tmp/tmpa1b2c3d4.onnx" = Some [Byte.x02] ∧
    ort_calls w' = [(Some ["output"], {[ "input" := np_array2 [1; 1]%float ]})].
Proof.
  apply (run_inference_unlink_failure_reported Demo.env [Byte.x02] 1 1 no_locals
           Worlds.locked "/tmp/tmpa1b2c3d4.onnx" ["e5f6g7h8"] Demo.rank2
           {[ "input" := np_array2 [1; 1]%float ]} [Demo.five]).
  - reflexivity.
  - reflexivity.
  - reflexivity.
  - reflexivity.
  - simpl. set_solver.
Defined.

(** X4.  When [tempfile] has no name to give, [run_inference] returns the
    failure pair of that error; the runtime is not called and the world is
    as before. *)
Theorem run_inference_without_tmp_name env model_bytes volume impeller_speed l w :
  first_free (files w) ".onnx" (tmp_names w) = None →
  App.run_inference env model_bytes volume impeller_speed (l, w)
    = ((l, w), inr (Failed "[Errno 17] No usable temporary file name found")).
Proof.
  intros Htmp. unfold App.run_inference, App.run_inference_try. run_M.
  unfold NamedTemporaryFile_write. run_M. by rewrite Htmp.
Qed.

Lemma run_inference_without_tmp_name_witness :
  App.run_inference Demo.env [Byte.x02] 1 1 (no_locals, Edge.no_names)
    = ((no_locals, Edge.no_names),
       inr (Failed "[Errno 17] No usable temporary file name found")).
Proof.
  apply (run_inference_without_tmp_name Demo.env [Byte.x02] 1 1 no_locals Edge.no_names).
  reflexivity.
Defined.

(** ** Models that declare no input *)

(** X5.  For a model that declares no input, the loop of Conjuagation_APP.py
    has nothing to reject: the runtime is called, with an empty
    dictionary. *)
Theorem App_no_declared_input_calls_runtime
    env model_bytes volume impeller_speed l w p rest session :
  first_free (files w) ".onnx" (tmp_names w) = Some (p, rest) →
  ort_parse env model_bytes = Some session →
  get_inputs session = [] →
  ∃ w' r,
    App.run_inference env model_bytes volume impeller_speed (l, w) = ((l, w'), inr r) ∧
    ort_calls w' = (ort_calls w ++ [(Some (name <$> get_outputs session), ∅)])%list.
Proof.
  intros Htmp Hparse Hin. eapply App_run_calls; [done..|]. by rewrite Hin.
Qed.

Lemma App_no_declared_input_calls_runtime_witness :
  ∃ w' r,
    App.run_inference Edge.env [Byte.x06] 1 1 (no_locals, Demo.world)
      = ((no_locals, w'), inr r) ∧
    ort_calls w' = [(Some ["output"], ∅)].
Proof.
  apply (App_no_declared_input_calls_runtime Edge.env [Byte.x06] 1 1 no_locals
           Demo.world "/tmp/tmpa1b2c3d4.onnx" ["e5f6g7h8"] Edge.no_inputs);
    reflexivity.
Defined.

(** X6.  For the same model, [input_names[0]] of Conjuagation_APP_V2.py
    raises [IndexError]: [run_inference] returns the failure pair of it, and
    the runtime is not called. *)
Theorem V2_no_declared_input_fails env path volume impeller_speed l w bytes session :
  files w !! path = Some bytes →
  ort_parse env bytes = Some session →
  get_inputs session = [] →
  V2.run_inference env path volume impeller_speed (l, w)
    = ((l, w), inr (Failed "list index out of range")).
Proof.
  intros Hfile Hparse Hin.
  unfold V2.run_inference, InferenceSession, list_getitem. run_M.
  rewrite Hfile, Hparse. simpl. by rewrite Hin.
Qed.

Lemma V2_no_declared_input_fails_witness :
  V2.run_inference Edge.env "/tmp/tmpmodel.onnx" 1 1
      (no_locals, Worlds.downloaded [Byte.x06])
    = ((no_locals, Worlds.downloaded [Byte.x06]),
       inr (Failed "list index out of range")).
Proof.
  apply (V2_no_declared_input_fails Edge.env "/tmp/tmpmodel.onnx" 1 1 no_locals
           (Worlds.downloaded [Byte.x06]) [Byte.x06] Edge.no_inputs); reflexivity.
Defined.

(** ** [download_model_from_github] *)

(** X7.  When the server answers 200, the body of the answer is written to
    a new temporary file, whose name is returned: the file did not exist
    before, it holds the body, and the session that the runtime then opens
    at that name is the session of the body.  The frame of the caller is
    kept. *)
Theorem download_stores_the_body env url response l w p rest :
  requests_get env url = inr response →
  status_code response = 200%Z →
  first_free (files w) ".onnx" (tmp_names w) = Some (p, rest) →
  V2.download_model_from_github env url (l, w)
    = ((l, written w p (content response) rest), inr p) ∧
  files w !! p = None ∧
  files (written w p (content response) rest) !! p = Some (content response) ∧
  (∀ session, ort_parse env (content response) = Some session →
     InferenceSession env p (l, written w p (content response) rest)
       = ((l, written w p (content response) rest), inr session)).
Proof.
  intros Hget Hstatus Htmp. split; [|split; [|split]].
  - unfold V2.download_model_from_github, NamedTemporaryFile_write. run_M.
    rewrite Hget. rewrite decide_True by done. run_M. by rewrite Htmp.
  - by eapply first_free_fresh.
  - simpl. apply lookup_insert_eq.
  - intros session Hparse. unfold InferenceSession. run_M.
    by rewrite lookup_insert_eq, Hparse.
Qed.

Lemma download_stores_the_body_witness :
  V2.download_model_from_github Demo.env
      "https://github.com/code2mech/App/blob/main/2L_5L.onnx" (no_locals, Demo.world)
    = ((no_locals, written Demo.world "/tmp/tmpa1b2c3d4.onnx" [Byte.x02] ["e5f6g7h8"]),
       inr "/tmp/tmpa1b2c3d4.onnx").
Proof.
  refine (proj1 (download_stores_the_body Demo.env
                   "https://github.com/code2mech/App/blob/main/2L_5L.onnx"
                   {| status_code := 200; content := [Byte.x02] |}
                   no_locals Demo.world "/tmp/tmpa1b2c3d4.onnx" ["e5f6g7h8"]
                   eq_refl eq_refl eq_refl)).
Defined.

(** X8.  When the download does not go through, nothing is written: for a
    status other than 200 the function raises the [Exception] of line 25,
    and an exception of [requests.get] passes through as it is; in both
    cases the world is as before. *)
Theorem download_failure_writes_nothing env url l w :
  (∀ response, requests_get env url = inr response → status_code response ≠ 200%Z →
     V2.download_model_from_github env url (l, w)
       = ((l, w), inl {| exc_class := PlainException;
                         exc_str := "Failed to download model from GitHub." |})) ∧
  (∀ e, requests_get env url = inl e →
     V2.download_model_from_github env url (l, w) = ((l, w), inl e)).
Proof.
  split.
  - intros response Hget Hstatus. unfold V2.download_model_from_github. run_M.
    rewrite Hget. by rewrite decide_False.
  - intros e Hget. unfold V2.download_model_from_github. run_M. by rewrite Hget.
Qed.

Lemma download_failure_writes_nothing_witness :
  V2.download_model_from_github Demo.env "https://example.org/missing.onnx"
      (no_locals, Demo.world)
    = ((no_locals, Demo.world),
       inl {| exc_class := PlainException;
              exc_str := "Failed to download model from GitHub." |}) ∧
  V2.download_model_from_github Edge.env "https://example.org/missing.onnx"
      (no_locals, Demo.world)
    = ((no_locals, Demo.world),
       inl {| exc_class := RequestException;
              exc_str := "HTTPSConnectionPool(host='github.com', port=443): Max retries exceeded" |}).
Proof.
  split.
  - refine (proj1 (download_failure_writes_nothing Demo.env
                     "https://example.org/missing.onnx" no_locals Demo.world)
              {| status_code := 404; content := [] |} eq_refl _).
    simpl. lia.
  - exact (proj2 (download_failure_writes_nothing Edge.env
                    "https://example.org/missing.onnx" no_locals Demo.world)
             _ eq_refl).
Defined.

(** ** [main] of Conjuagation_APP_V2.py *)

Lemma page_add_nil w : page_add w [] = w.
Proof. unfold page_add. rewrite (right_id_L [] (++)). by destruct w. Qed.

Lemma V2_download_ok env url response l w p rest :
  requests_get env url = inr response →
  status_code response = 200%Z →
  first_free (files w) ".onnx" (tmp_names w) = Some (p, rest) →
  V2.download_model_from_github env url (l, w)
    = ((l, written w p (content response) rest), inr p).
Proof.
  intros Hget Hstatus Htmp.
  unfold V2.download_model_from_github, NamedTemporaryFile_write. run_M.
  rewrite Hget. rewrite decide_True by done. run_M. by rewrite Htmp.
Qed.

(** [run_inference] of Conjuagation_APP_V2.py touches neither the disk nor
    the page. *)
Lemma V2_run_inference_world env path volume impeller_speed l w :
  ∃ w' r,
    V2.run_inference env path volume impeller_speed (l, w) = ((l, w'), inr r) ∧
    files w' = files w ∧ undeletable w' = undeletable w ∧ ui w' = ui w.
Proof.
  unfold V2.run_inference, InferenceSession, session_run, list_getitem. run_M.
  destruct (files w !! path) as [bytes|]; simpl; [|by eauto 10].
  destruct (ort_parse env bytes) as [session|]; simpl; [|by eauto 10].
  destruct (name <$> get_inputs session) as [|first others]; simpl; [by eauto 10|].
  destruct (run session None _); simpl; eauto 10.
Qed.

(** The display of Conjuagation_APP_V2.py only adds to the page. *)
Lemma V2_show_results_page env payload l w :
  ∃ evs r, V2.show_results env payload (l, w) = ((l, page_add w evs), r).
Proof.
  destruct payload as [[[input_names input_dict] output_args] outputs].
  unfold V2.show_results, list_getitem, array_getitem. run_M.
  destruct outputs as [|first others]; simpl.
  - exists [], (inl {| exc_class := IndexError; exc_str := "list index out of range" |}).
    by rewrite page_add_nil.
  - unfold len, flatten. simpl.
    destruct (decide (5 ≤ length (arr_data first))%nat) as [Hlen|Hlen].
    + destruct (arr_data first) as [|x0 [|x1 [|x2 [|x3 [|x4 more]]]]] eqn:Hdata;
        simpl in Hlen; try lia.
      run_M. rewrite ?st_spec, ?page_add_add. by eexists _, _.
    + run_M.
      rewrite (for_each_st _ _ (raw_line env)) by (by intros [i val] ? ?).
      rewrite ?st_spec, ?page_add_add. by eexists _, _.
Qed.

(** X9.  A network error is not what the user gets: when [requests.get]
    raises, whatever the exception, [main] of Conjuagation_APP_V2.py ends
    with the [UnboundLocalError] of its [finally], and the page shows the
    title only. *)
Theorem V2_main_masks_network_error env form url e l w :
  V2.button form = true →
  (V2.selected_model_name form, url) ∈ V2.MODEL_OPTIONS →
  requests_get env url = inl e →
  V2.main env form (l, w) =
    ((l, page_add w [StPageConfig "ONNX Model Inference";
                     StTitle "🧠 ONNX Model Inference from GitHub"]),
     inl {| exc_class := UnboundLocalError;
            exc_str := "cannot access local variable 'model_path' where it is not associated with a value" |}).
Proof.
  intros Hbutton Hurl Hget.
  unfold V2.main, call. unfold mbind at 1 2, M_bind.
  rewrite !st_spec. rewrite page_add_add. unfold mbind at 1, M_bind.
  rewrite (MODEL_OPTIONS_lookup _ _ _ _ Hurl), Hbutton.
  unfold V2.download_model_from_github. run_M. by rewrite Hget.
Qed.

Lemma V2_main_masks_network_error_witness :
  V2.main Edge.env
    {| V2.selected_model_name := "2L to 5L"; V2.volume := 1;
       V2.impeller_speed := 1; V2.button := true |} (no_locals, Demo.world) =
    ((no_locals, page_add Demo.world [StPageConfig "ONNX Model Inference";
                                      StTitle "🧠 ONNX Model Inference from GitHub"]),
     inl {| exc_class := UnboundLocalError;
            exc_str := "cannot access local variable 'model_path' where it is not associated with a value" |}).
Proof.
  apply (V2_main_masks_network_error Edge.env _
           "https://github.com/code2mech/App/blob/main/2L_5L.onnx"
           {| exc_class := RequestException;
              exc_str := "HTTPSConnectionPool(host='github.com', port=443): Max retries exceeded" |}).
  - reflexivity.
  - simpl. set_solver.
  - reflexivity.
Defined.

(** X10.  Once the download has gone through, [main] of
    Conjuagation_APP_V2.py leaves no file behind: whether the inference
    succeeds or fails, and even when the display raises, the [finally]
    removes the downloaded file and the disk is as it was before.  (The file
    must be one that the operating system lets go.) *)
Theorem V2_main_removes_download env form url response l w p rest :
  V2.button form = true →
  (V2.selected_model_name form, url) ∈ V2.MODEL_OPTIONS →
  requests_get env url = inr response →
  status_code response = 200%Z →
  first_free (files w) ".onnx" (tmp_names w) = Some (p, rest) →
  p ∉ undeletable w →
  ∃ w' r, V2.main env form (l, w) = ((l, w'), r) ∧ files w' = files w.
Proof.
  intros Hbutton Hurl Hget Hstatus Htmp Hdel.
  pose proof (first_free_fresh _ _ _ _ _ Htmp) as Hfresh.
  unfold V2.main, call. unfold mbind at 1 2, M_bind.
  rewrite !st_spec. rewrite page_add_add. unfold mbind at 1, M_bind.
  rewrite (MODEL_OPTIONS_lookup _ _ _ _ Hurl), Hbutton.
  unfold try_finally. unfold mbind at 1, M_bind.
  erewrite V2_download_ok by done.
  unfold mbind at 1, M_bind. unfold bind_model_path at 1. simpl.
  unfold mbind at 1, M_bind.
  match goal with |- context [V2.run_inference env p ?v ?s (?lo, ?w0)] =>
    destruct (V2_run_inference_world env p v s lo w0)
      as (w1 & r & -> & Hf1 & Hu1 & _) end.
  assert (∃ w2 res,
            (match r with
             | Succeeded result => V2.show_results env result
             | Failed result => st (StError ("Inference failed: " ++ result))
             end) ({| model_path := Some p |}, w1)
            = (({| model_path := Some p |}, w2), res) ∧
            files w2 = files w1 ∧ undeletable w2 = undeletable w1)
    as (w2 & res & -> & Hf2 & Hu2).
  { destruct r as [payload|message].
    - destruct (V2_show_results_page env payload {| model_path := Some p |} w1)
        as (evs & res & ->). by eexists _, _.
    - rewrite st_spec. by eexists _, _. }
  assert (files w2 !! p = Some (content response)) as Hp.
  { rewrite Hf2, Hf1. simpl. apply lookup_insert_eq. }
  assert (p ∉ undeletable w2) as Hdel2.
  { by rewrite Hu2, Hu1. }
  assert (files (removed w2 p) = files w) as Hdone.
  { simpl. rewrite Hf2, Hf1. simpl. rewrite delete_insert_eq. by apply delete_id. }
  destruct res as [e|[]]; unfold os_path_exists, os_unlink; run_M; rewrite Hp;
    (rewrite bool_decide_true by (by eexists)); simpl; rewrite Hp;
    (destruct (decide (is_Some (Some (content response)))) as [_|[]]; [|by eexists]);
    (destruct (decide (p ∈ undeletable w2)); [done|]); simpl;
    by eexists _, _.
Qed.

Lemma V2_main_removes_download_witness :
  ∃ w' r,
    V2.main Demo.env
      {| V2.selected_model_name := "2L to 5L"; V2.volume := 1;
         V2.impeller_speed := 1; V2.button := true |} (no_locals, Demo.world)
      = ((no_locals, w'), r) ∧
    files w' = files Demo.world.
Proof.
  apply (V2_main_removes_download Demo.env _
           "https://github.com/code2mech/App/blob/main/2L_5L.onnx"
           {| status_code := 200; content := [Byte.x02] |}
           no_locals Demo.world "/tmp/tmpa1b2c3d4.onnx" ["e5f6g7h8"]).
  - reflexivity.
  - simpl. set_solver.
  - reflexivity.
  - reflexivity.
  - reflexivity.
  - simpl. set_solver.
Defined.

(** X11.  When the server answers 200 with a body that the runtime does not
    parse (a web page, say), [main] of Conjuagation_APP_V2.py finishes
    without an exception: the page shows "Inference failed:" with the
    message of the runtime, the runtime's [run] is not called, and the
    downloaded file is removed. *)
Theorem V2_main_reports_unparsable_download env form url response l w p rest :
  V2.button form = true →
  (V2.selected_model_name form, url) ∈ V2.MODEL_OPTIONS →
  requests_get env url = inr response →
  status_code response = 200%Z →
  ort_parse env (content response) = None →
  first_free (files w) ".onnx" (tmp_names w) = Some (p, rest) →
  p ∉ undeletable w →
  ∃ w',
    V2.main env form (l, w) = ((l, w'), inr ()) ∧
    ui w' = (ui w ++
             [StPageConfig "ONNX Model Inference";
              StTitle "🧠 ONNX Model Inference from GitHub";
              StError ("Inference failed: " ++ ort_load_error env p (content response))])%list ∧
    ort_calls w' = ort_calls w ∧
    files w' = files w.
Proof.
  intros Hbutton Hurl Hget Hstatus Hparse Htmp Hdel.
  pose proof (first_free_fresh _ _ _ _ _ Htmp) as Hfresh.
  unfold V2.main, call. unfold mbind at 1 2, M_bind.
  rewrite !st_spec. rewrite page_add_add. unfold mbind at 1, M_bind.
  rewrite (MODEL_OPTIONS_lookup _ _ _ _ Hurl), Hbutton.
  unfold try_finally. unfold mbind at 1, M_bind.
  erewrite V2_download_ok by done.
  unfold V2.run_inference, InferenceSession, os_path_exists, os_unlink. run_M.
  rewrite lookup_insert_eq, Hparse. simpl. rewrite lookup_insert_eq.
  rewrite bool_decide_true by (by eexists). simpl. rewrite lookup_insert_eq.
  destruct (decide (is_Some (Some (content response)))) as [_|[]]; [|by eexists].
  destruct (decide (p ∈ undeletable w)); [done|]. simpl.
  eexists. split; [done|]. simpl. repeat split.
  - by rewrite <- (assoc_L (++)).
  - rewrite delete_insert_eq. by apply delete_id.
Qed.

Lemma V2_main_reports_unparsable_download_witness :
  ∃ w',
    V2.main Demo.env
      {| V2.selected_model_name := "10L to 20L"; V2.volume := 1;
         V2.impeller_speed := 1; V2.button := true |} (no_locals, Demo.world)
      = ((no_locals, w'), inr ()) ∧
    ui w' =
      [StPageConfig "ONNX Model Inference";
       StTitle "🧠 ONNX Model Inference from GitHub";
       StError "Inference failed: [ONNXRuntimeError] : 7 : INVALID_PROTOBUF : Load model from /tmp/tmpa1b2c3d4.onnx failed:Protobuf parsing failed."] ∧
    ort_calls w' = [] ∧
    files w' = ∅.
Proof.
  apply (V2_main_reports_unparsable_download Demo.env _
           "https://github.com/code2mech/App/blob/main/10L_20L.onnx"
           {| status_code := 200; content := [Byte.x3c; Byte.x21] |}
           no_locals Demo.world "/tmp/tmpa1b2c3d4.onnx" ["e5f6g7h8"]).
  - reflexivity.
  - simpl. set_solver.
  - reflexivity.
  - reflexivity.
  - reflexivity.
  - reflexivity.
  - simpl. set_solver.
Defined.

(** ** [main] of Conjuagation_APP.py *)

(** Statements in sequence. *)
Lemma bind_st {A} ev (k : M A) l w : (st ev ;; k) (l, w) = k (l, page_add w [ev]).
Proof. reflexivity. Qed.

Lemma bind_returns {A B} (m : M A) (f : A → M B) s s' a :
  m s = (s', inr a) → (m ≫= f) s = f a s'.
Proof. intros H. unfold mbind, M_bind. by rewrite H. Qed.

Lemma bind_raises {A B} (m : M A) (f : A → M B) s s' e :
  m s = (s', inl e) → (m ≫= f) s = (s', inl e).
Proof. intros H. unfold mbind, M_bind. by rewrite H. Qed.

(** The display of Conjuagation_APP.py: it finishes when there is a first
    output, and raises after the heading when there is none. *)
Lemma App_show_results_ok env input_names input_dict output_names first others l w :
  ∃ evs,
    App.show_results env (input_names, input_dict, output_names, first :: others) (l, w)
      = ((l, page_add w evs), inr ()).
Proof.
  unfold App.show_results, list_getitem, array_getitem. run_M.
  unfold len, flatten. simpl.
  destruct (decide (5 ≤ length (arr_data first))%nat) as [Hlen|Hlen].
  - destruct (arr_data first) as [|x0 [|x1 [|x2 [|x3 [|x4 more]]]]] eqn:Hdata;
      simpl in Hlen; try lia.
    run_M. rewrite ?st_spec, ?page_add_add. by eexists.
  - simpl. rewrite ?st_spec, ?page_add_add. by eexists.
Qed.

Lemma App_show_results_empty env input_names input_dict output_names l w :
  App.show_results env (input_names, input_dict, output_names, []) (l, w)
    = ((l, page_add w [StSubheader "Results"]),
       inl {| exc_class := IndexError; exc_str := "list index out of range" |}).
Proof. reflexivity. Qed.

(** X12.  [main] of Conjuagation_APP.py reads [outputs[0]] without looking
    at the length of the list: when the inference succeeds and the runtime
    has answered with no array, [main] ends with an [IndexError], after the
    heading "Results" and before the footer.  The temporary file is gone by
    then. *)
Theorem App_main_no_output_raises
    env form model_bytes l w p rest session input_dict :
  App.uploaded_file form = Some model_bytes →
  App.button form = true →
  first_free (files w) ".onnx" (tmp_names w) = Some (p, rest) →
  ort_parse env model_bytes = Some session →
  App.fill_input_dict (get_inputs session) (App.volume form) (App.impeller_speed form) ∅
    = inr input_dict →
  run session (Some (name <$> get_outputs session)) input_dict = inr [] →
  p ∉ undeletable w →
  ∃ w',
    App.main env form (l, w)
      = ((l, w'), inl {| exc_class := IndexError; exc_str := "list index out of range" |}) ∧
    last (ui w') = Some (StSubheader "Results") ∧
    files w' = files w.
Proof.
  intros Hup Hbutton Htmp Hparse Hfill Hrun Hdel.
  unfold App.main, call. rewrite !bind_st, !page_add_add. simpl.
  rewrite Hup, Hbutton.
  erewrite bind_raises; cycle 1.
  { erewrite bind_returns; [|by eapply App_run_success].
    apply App_show_results_empty. }
  eexists. split; [done|]. simpl. split.
  - by rewrite !last_app.
  - rewrite delete_insert_eq. apply delete_id. by eapply first_free_fresh.
Qed.

Lemma App_main_no_output_raises_witness :
  ∃ w',
    App.main Edge.env
      {| App.uploaded_file := Some [Byte.x07]; App.volume := 1;
         App.impeller_speed := 1; App.button := true |} (no_locals, Demo.world)
      = ((no_locals, w'),
         inl {| exc_class := IndexError; exc_str := "list index out of range" |}) ∧
    last (ui w') = Some (StSubheader "Results") ∧
    files w' = files Demo.world.
Proof.
  apply (App_main_no_output_raises Edge.env _ [Byte.x07] no_locals Demo.world
           "/tmp/tmpa1b2c3d4.onnx" ["e5f6g7h8"] Edge.no_outputs
           {[ "input" := np_array2 [1; 1]%float ]}).
  - reflexivity.
  - reflexivity.
  - reflexivity.
  - reflexivity.
  - reflexivity.
  - reflexivity.
  - simpl. set_solver.
Defined.

(** X13.  That is the only way for an exception to leave [main] of
    Conjuagation_APP.py: with a runtime that never answers with an empty
    list of arrays, [main] finishes for every form and every world, and the
    last thing on the page is the footer. *)
Theorem App_main_finishes env form l w :
  (∀ bytes session output_names feed,
     ort_parse env bytes = Some session → run session output_names feed ≠ inr []) →
  ∃ w',
    App.main env form (l, w) = ((l, w'), inr ()) ∧
    last (ui w') =
      Some (StCaption "ONNX Model Inference Tool - Powered by Streamlit and ONNX Runtime").
Proof.
  intros Hanswers.
  unfold App.main, call. rewrite !bind_st, !page_add_add. simpl.
  destruct (App.uploaded_file form) as [model_bytes|].
  - destruct (App.button form).
    + match goal with |- context [mbind _ _ (no_locals, ?w0)] =>
        destruct (App_run_inference_returns env model_bytes (App.volume form)
                    (App.impeller_speed form) no_locals w0) as (w1 & r & Hrun)
      end.
      destruct r as [[[[input_names input_dict] output_names] outputs]|message].
      * pose proof Hrun as Hinv. apply App_run_success_inv in Hinv
          as (p & rest & session & d & outs & _ & Hparse & _ & Hanswer & _ & Hpay & _).
        injection Hpay as _ _ _ ->.
        destruct outs as [|first others];
          [by apply (Hanswers model_bytes) in Hanswer|].
        destruct (App_show_results_ok env input_names input_dict output_names
                    first others no_locals w1) as (evs & Hshow).
        erewrite bind_returns; cycle 1.
        { erewrite bind_returns; [|exact Hrun]. exact Hshow. }
        simpl. rewrite ?bind_st, ?st_spec, ?page_add_add. eexists. split; [done|].
        simpl. by rewrite ?last_app.
      * erewrite bind_returns; cycle 1.
        { erewrite bind_returns; [|exact Hrun]. apply st_spec. }
        simpl. rewrite ?bind_st, ?st_spec, ?page_add_add. eexists. split; [done|].
        simpl. by rewrite ?last_app.
    + simpl. rewrite ?bind_st, ?st_spec, ?page_add_add. eexists. split; [done|].
      simpl. by rewrite ?last_app.
  - simpl. rewrite ?bind_st, ?st_spec, ?page_add_add. eexists. split; [done|].
    simpl. by rewrite ?last_app.
Qed.

Lemma App_main_finishes_witness :
  ∃ w',
    App.main Demo.env
      {| App.uploaded_file := Some [Byte.x02]; App.volume := 1;
         App.impeller_speed := 1; App.button := true |} (no_locals, Demo.world)
      = ((no_locals, w'), inr ()) ∧
    last (ui w') =
      Some (StCaption "ONNX Model Inference Tool - Powered by Streamlit and ONNX Runtime").
Proof.
  apply (App_main_finishes Demo.env _ no_locals Demo.world).
  intros bytes session output_names feed Hparse.
  assert (∃ inputs out, session = Demo.session_of inputs out) as (inputs & out & ->).
  { destruct bytes as [|b bytes]; [discriminate|].
    destruct b; try discriminate; injection Hparse as <-; by eexists _, _. }
  simpl. destruct (decide _); discriminate.
Defined.

(** ** The display of GUI_Conjuagation.py *)

Section GuiDisplay.
Context (env : Env) (fmt_18e : spec_float → string).

Lemma Gui_show_output_at (outputs : list ndarray) i output_name o l w :
  outputs !! i = Some o →
  Gui.show_output env fmt_18e outputs (i, output_name) (l, w)
    = ((l, page_add w (output_page env fmt_18e output_name o)), inr ()).
Proof.
  intros Hi. unfold Gui.show_output, list_getitem, output_page. run_M.
  rewrite Hi. simpl.
  destruct (decide (Gui.size o < 10)%nat); simpl;
    by rewrite ?st_spec, ?page_add_add.
Qed.

Lemma Gui_show_output_missing (outputs : list ndarray) i output_name l w :
  outputs !! i = None →
  Gui.show_output env fmt_18e outputs (i, output_name) (l, w)
    = ((l, page_add w [StWrite ("Output '" ++ output_name ++ "':")]),
       inl {| exc_class := IndexError; exc_str := "list index out of range" |}).
Proof.
  intros Hi. unfold Gui.show_output, list_getitem. run_M. by rewrite Hi.
Qed.

(** The loop from position [k] on, when every name has its array. *)
Lemma Gui_loop_all (output_names : list string) :
  ∀ (k : nat) (before outputs : list ndarray) l w,
    length before = k →
    (length output_names ≤ length outputs)%nat →
    for_each (zip (seq k (length output_names)) output_names)
        (Gui.show_output env fmt_18e (before ++ outputs)) (l, w)
      = ((l, page_add w
               (concat (zip_with (output_page env fmt_18e) output_names outputs))),
         inr ()).
Proof.
  induction output_names as [|output_name output_names IH];
    intros k before outputs l w Hk Hlen; simpl.
  - by rewrite page_add_nil.
  - destruct outputs as [|o outputs]; simpl in Hlen; [lia|].
    erewrite bind_returns; cycle 1.
    { apply Gui_show_output_at. rewrite lookup_app_r by lia.
      by replace (k - length before)%nat with 0%nat by lia. }
    rewrite (cons_middle o before outputs), (assoc_L (++)).
    rewrite IH; [|rewrite length_app; simpl; lia|lia].
    by rewrite page_add_add.
Qed.

(** The loop from position [k] on, when the arrays run out first. *)
Lemma Gui_loop_short (outputs : list ndarray) :
  ∀ (k : nat) (before : list ndarray) (output_names : list string) l w,
    length before = k →
    (length outputs < length output_names)%nat →
    ∃ missing,
      output_names !! length outputs = Some missing ∧
      for_each (zip (seq k (length output_names)) output_names)
          (Gui.show_output env fmt_18e (before ++ outputs)) (l, w)
        = ((l, page_add w
                 (concat (zip_with (output_page env fmt_18e) output_names outputs)
                  ++ [StWrite ("Output '" ++ missing ++ "':")])%list),
           inl {| exc_class := IndexError; exc_str := "list index out of range" |}).
Proof.
  induction outputs as [|o outputs IH];
    intros k before output_names l w Hk Hlen;
    (destruct output_names as [|output_name output_names]; simpl in Hlen; [lia|]).
  - exists output_name. split; [done|]. simpl.
    erewrite bind_raises; [done|].
    apply Gui_show_output_missing. rewrite (right_id_L [] (++)).
    apply lookup_ge_None. lia.
  - destruct (IH (S k) (before ++ [o])%list output_names l
                (page_add w (output_page env fmt_18e output_name o)))
      as (missing & Hmissing & Hloop); [rewrite length_app; simpl; lia|lia|].
    exists missing. split; [done|]. simpl.
    erewrite bind_returns; cycle 1.
    { apply Gui_show_output_at. rewrite lookup_app_r by lia.
      by replace (k - length before)%nat with 0%nat by lia. }
    rewrite (cons_middle o before outputs), (assoc_L (++)).
    rewrite Hloop, page_add_add. by rewrite <- (assoc_L (++)).
Qed.

End GuiDisplay.

Lemma Gui_show_outputs_all_aux env fmt_18e (output_names : list string)
    (outputs : list ndarray) l w :
  (length output_names ≤ length outputs)%nat →
  Gui.show_outputs env fmt_18e output_names outputs (l, w)
    = ((l, page_add w
             (StSubheader "Results"
              :: concat (zip_with (output_page env fmt_18e) output_names outputs))),
       inr ()).
Proof.
  intros Hlen. unfold Gui.show_outputs, enumerate. rewrite bind_st.
  rewrite (Gui_loop_all env fmt_18e output_names 0 [] outputs) by done.
  by rewrite page_add_add.
Qed.

(** X14.  When the runtime has answered with at least as many arrays as the
    model declares outputs, the output loop of GUI_Conjuagation.py finishes
    without an exception and shows, after the heading, each declared output
    with the array at its position: name, shape, then the values for an
    array of fewer than ten elements, and for a larger one its first ten
    elements and a download button that carries all of them. *)
Theorem Gui_show_outputs_all env fmt_18e (output_names : list string)
    (outputs : list ndarray) l w :
  (length output_names ≤ length outputs)%nat →
  Gui.show_outputs env fmt_18e output_names outputs (l, w)
    = ((l, page_add w
             (StSubheader "Results"
              :: concat (zip_with (output_page env fmt_18e) output_names outputs))),
       inr ()).
Proof. apply Gui_show_outputs_all_aux. Qed.

Lemma Gui_show_outputs_all_witness :
  Gui.show_outputs Demo.env (str_float32 Demo.env) ["summary"; "profile"]
      [Demo.three; Edge.twelve] (no_locals, Demo.world)
    = ((no_locals,
        page_add Demo.world
          (StSubheader "Results"
           :: concat (zip_with (output_page Demo.env (str_float32 Demo.env))
                        ["summary"; "profile"] [Demo.three; Edge.twelve]))),
       inr ()).
Proof.
  apply (Gui_show_outputs_all Demo.env (str_float32 Demo.env) ["summary"; "profile"]
           [Demo.three; Edge.twelve] no_locals Demo.world).
  simpl. lia.
Defined.

(** X15.  When the arrays run out before the declared outputs do, the loop
    stops at the first output that has no array: its name is on the page
    already, after the outputs before it, and [outputs[i]] raises
    [IndexError]. *)
Theorem Gui_show_outputs_short env fmt_18e (output_names : list string)
    (outputs : list ndarray) l w :
  (length outputs < length output_names)%nat →
  ∃ missing,
    output_names !! length outputs = Some missing ∧
    Gui.show_outputs env fmt_18e output_names outputs (l, w)
      = ((l, page_add w
               (StSubheader "Results"
                :: concat (zip_with (output_page env fmt_18e) output_names outputs)
                ++ [StWrite ("Output '" ++ missing ++ "':")])%list),
         inl {| exc_class := IndexError; exc_str := "list index out of range" |}).
Proof.
  intros Hlen.
  destruct (Gui_loop_short env fmt_18e outputs 0 [] output_names l
              (page_add w [StSubheader "Results"]) eq_refl Hlen)
    as (missing & Hmissing & Hloop).
  exists missing. split; [done|].
  unfold Gui.show_outputs, enumerate. rewrite bind_st.
  simpl in Hloop. rewrite Hloop. by rewrite page_add_add.
Qed.

Lemma Gui_show_outputs_short_witness :
  ∃ missing,
    ["summary"; "profile"] !! length [Demo.three] = Some missing ∧
    Gui.show_outputs Demo.env (str_float32 Demo.env) ["summary"; "profile"]
        [Demo.three] (no_locals, Demo.world)
      = ((no_locals,
          page_add Demo.world
            (StSubheader "Results"
             :: concat (zip_with (output_page Demo.env (str_float32 Demo.env))
                          ["summary"; "profile"] [Demo.three])
             ++ [StWrite ("Output '" ++ missing ++ "':")])%list),
         inl {| exc_class := IndexError; exc_str := "list index out of range" |}).
Proof.
  apply (Gui_show_outputs_short Demo.env (str_float32 Demo.env) ["summary"; "profile"]
           [Demo.three] no_locals Demo.world).
  simpl. lia.
Defined.

(** The download button is there for the arrays of ten elements or more, and
    for those only. *)
Lemma output_page_button env fmt_18e output_name o :
  (∃ data, StDownloadButton "Download full results as CSV" data
             (output_name ++ "_results.csv") "text/csv"
           ∈ output_page env fmt_18e output_name o)
  ↔ (10 ≤ Gui.size o)%nat.
Proof.
  unfold output_page. destruct (decide (Gui.size o < 10)%nat) as [Hsmall|Hlarge].
  - split; [|lia]. intros [data Hin]. simpl in Hin.
    repeat (apply elem_of_cons in Hin as [Hin|Hin]; [discriminate|]).
    by apply elem_of_nil in Hin.
  - split; [lia|]. intros _. eexists. simpl.
    do 4 apply list_elem_of_further. apply list_elem_of_here.
Qed.

(** ** [main] of GUI_Conjuagation.py *)

Lemma for_each_pages {A} (xs : list A) (body : A → M ()) (f : A → list UiEvent) l w :
  (∀ x l w, body x (l, w) = ((l, page_add w (f x)), inr ())) →
  for_each xs body (l, w) = ((l, page_add w (concat (f <$> xs))), inr ()).
Proof.
  intros Hbody. revert w. induction xs as [|x xs IH]; intros w; simpl.
  - by rewrite page_add_nil.
  - erewrite bind_returns; [|apply Hbody]. by rewrite IH, page_add_add.
Qed.

Lemma Gui_show_inputs_ok env input_names input_dict l w :
  ∃ evs, Gui.show_inputs env input_names input_dict (l, w) = ((l, page_add w evs), inr ()).
Proof.
  unfold Gui.show_inputs. rewrite bind_st.
  rewrite (for_each_pages _ _
             (λ key, match input_dict !! key with
                     | Some value =>
                         [StWrite ("Input '" ++ key ++ "':");
                          StWrite ("  Shape: " ++ Gui.repr_tuple (arr_shape value));
                          StWrite ("  Values: " ++ str_ndarray env value)]
                     | None => []
                     end)).
  - rewrite page_add_add. by eexists.
  - intros key l' w'. destruct (input_dict !! key); simpl.
    + by rewrite !bind_st, st_spec, !page_add_add.
    + by rewrite page_add_nil.
Qed.

(** X16.  With a runtime that answers with one array per requested output,
    no exception leaves [main] of GUI_Conjuagation.py: for every form and
    every world it finishes, and the last thing on the page is the
    footer. *)
Theorem Gui_main_finishes env fmt_18e form l w :
  (∀ bytes session feed outputs,
     ort_parse env bytes = Some session →
     run session (Some (name <$> get_outputs session)) feed = inr outputs →
     length outputs = length (get_outputs session)) →
  ∃ w',
    Gui.main env fmt_18e form (l, w) = ((l, w'), inr ()) ∧
    last (ui w') =
      Some (StCaption "ONNX Model Inference Tool - Powered by Streamlit and ONNX Runtime").
Proof.
  intros Hanswers.
  unfold Gui.main, call. rewrite !bind_st, !page_add_add. simpl.
  destruct (App.uploaded_file form) as [model_bytes|].
  - destruct (App.button form).
    + match goal with |- context [mbind _ _ (no_locals, ?w0)] =>
        destruct (App_run_inference_returns env model_bytes (App.volume form)
                    (App.impeller_speed form) no_locals w0) as (w1 & r & Hrun)
      end.
      destruct r as [[[[input_names input_dict] output_names] outputs]|message].
      * pose proof Hrun as Hinv. apply App_run_success_inv in Hinv
          as (p & rest & session & d & outs & _ & Hparse & _ & Hanswer & _ & Hpay & _).
        injection Hpay as _ _ -> ->.
        apply (Hanswers model_bytes) in Hanswer; [|done].
        assert (∃ evs, Gui.show_results env fmt_18e
                         (input_names, input_dict, name <$> get_outputs session, outs)
                         (no_locals, w1) = ((no_locals, page_add w1 evs), inr ()))
          as (evs & Hshow).
        { unfold Gui.show_results. rewrite !bind_st, !page_add_add.
          destruct (Gui_show_inputs_ok env input_names input_dict no_locals
                      (page_add w1
                         [StSubheader "Model Information";
                          StWrite ("Number of inputs: " ++ pretty (length input_names));
                          StWrite ("Input names: " ++ Gui.repr_str_list input_names)]))
            as (evs & Hin).
          erewrite bind_returns; [|exact Hin].
          rewrite Gui_show_outputs_all_aux, !page_add_add; [by eexists|].
          rewrite length_fmap. lia. }
        erewrite bind_returns; cycle 1.
        { erewrite bind_returns; [|exact Hrun]. exact Hshow. }
        simpl. rewrite ?bind_st, ?st_spec, ?page_add_add. eexists. split; [done|].
        simpl. by rewrite ?last_app.
      * erewrite bind_returns; cycle 1.
        { erewrite bind_returns; [|exact Hrun]. apply st_spec. }
        simpl. rewrite ?bind_st, ?st_spec, ?page_add_add. eexists. split; [done|].
        simpl. by rewrite ?last_app.
    + simpl. rewrite ?bind_st, ?st_spec, ?page_add_add. eexists. split; [done|].
      simpl. by rewrite ?last_app.
  - simpl. rewrite ?bind_st, ?st_spec, ?page_add_add. eexists. split; [done|].
    simpl. by rewrite ?last_app.
Qed.

Lemma Gui_main_finishes_witness :
  ∃ w',
    Gui.main Demo.env (str_float32 Demo.env)
      {| App.uploaded_file := Some [Byte.x02]; App.volume := 1;
         App.impeller_speed := 1; App.button := true |} (no_locals, Demo.world)
      = ((no_locals, w'), inr ()) ∧
    last (ui w') =
      Some (StCaption "ONNX Model Inference Tool - Powered by Streamlit and ONNX Runtime").
Proof.
  apply (Gui_main_finishes Demo.env (str_float32 Demo.env) _ no_locals Demo.world).
  intros bytes session feed outputs Hparse.
  assert (∃ inputs out, session = Demo.session_of inputs out) as (inputs & out & ->).
  { destruct bytes as [|b bytes]; [discriminate|].
    destruct b; try discriminate; injection Hparse as <-; by eexists _, _. }
  simpl. destruct (decide _); [|discriminate]. by intros [= <-].
Defined.

(** ** The three ways [run_inference] of Conjuagation_APP.py ends cleanly *)

(** X17.  A successful [run_inference] leaves no trace on the disk or on the
    page: the files are those of before, and the one thing that the world
    remembers is the single call of the runtime. *)
Theorem successful_run_leaves_no_trace
    env model_bytes volume impeller_speed l w st input_names input_dict output_names outputs :
  App.run_inference env model_bytes volume impeller_speed (l, w)
    = (st, inr (Succeeded (input_names, input_dict, output_names, outputs))) →
  st.1 = l ∧
  files st.2 = files w ∧
  undeletable st.2 = undeletable w ∧
  ui st.2 = ui w ∧
  ort_calls st.2 = (ort_calls w ++ [(Some output_names, input_dict)])%list.
Proof.
  intros (p & rest & session & d & outs & Htmp & _ & _ & _ & _ & Hpay & ->)%App_run_success_inv.
  injection Hpay as -> -> -> ->. simpl. repeat split.
  rewrite delete_insert_eq. apply delete_id. by eapply first_free_fresh.
Qed.

Lemma successful_run_leaves_no_trace_witness :
  files after_first_run = files Demo.world ∧
  ort_calls after_first_run
    = ([] ++ [(Some ["output"], {[ "input" := np_array2 [1; 1]%float ]})])%list.
Proof.
  destruct (successful_run_leaves_no_trace Demo.env [Byte.x02] 1 1 no_locals
              Demo.world (no_locals, after_first_run) ["input"]
              {[ "input" := np_array2 [1; 1]%float ]} ["output"] [Demo.five])
    as (_ & Hfiles & _ & _ & Hcalls).
  - eapply (App_run_success Demo.env [Byte.x02] 1 1 no_locals Demo.world
              "/tmp/tmpa1b2c3d4.onnx" ["e5f6g7h8"] Demo.rank2);
      [reflexivity|reflexivity|reflexivity|reflexivity|set_solver].
  - split; [exact Hfiles|exact Hcalls].
Defined.

(** X18.  When the runtime's [run] raises, [run_inference] returns the
    failure pair with the message of the runtime, and the handler has
    removed the temporary file: the disk is as before.  (The file must be
    one that the operating system lets go.) *)
Theorem runtime_failure_reported_and_cleaned
    env model_bytes volume impeller_speed l w p rest session input_dict message :
  first_free (files w) ".onnx" (tmp_names w) = Some (p, rest) →
  ort_parse env model_bytes = Some session →
  App.fill_input_dict (get_inputs session) volume impeller_speed ∅ = inr input_dict →
  run session (Some (name <$> get_outputs session)) input_dict = inl message →
  p ∉ undeletable w →
  ∃ w',
    App.run_inference env model_bytes volume impeller_speed (l, w)
      = ((l, w'), inr (Failed message)) ∧
    files w' = files w ∧
    ort_calls w' = (ort_calls w ++ [(Some (name <$> get_outputs session), input_dict)])%list.
Proof.
  intros Htmp Hparse Hfill Hrun Hdel.
  unfold App.run_inference, App.run_inference_try. run_M.
  unfold NamedTemporaryFile_write, InferenceSession, session_run. run_M.
  rewrite Htmp. simpl. rewrite lookup_insert_eq, Hparse. simpl.
  rewrite Hfill. simpl. rewrite Hrun. simpl.
  rewrite run_inference_except_spec. eexists. split; [done|].
  unfold cleaned. simpl. rewrite lookup_insert_eq.
  rewrite decide_True by (split; [by eexists|done]). simpl. split; [|done].
  rewrite delete_insert_eq. apply delete_id. by eapply first_free_fresh.
Qed.

Lemma runtime_failure_reported_and_cleaned_witness :
  ∃ w',
    App.run_inference Edge.env [Byte.x0a] 1 1 (no_locals, Demo.world)
      = ((no_locals, w'),
         inr (Failed "[ONNXRuntimeError] : 2 : INVALID_ARGUMENT : Unexpected input data type")) ∧
    files w' = files Demo.world ∧
    ort_calls w' = ([] ++ [(Some ["output"], {[ "input" := np_array2 [1; 1]%float ]})])%list.
Proof.
  apply (runtime_failure_reported_and_cleaned Edge.env [Byte.x0a] 1 1 no_locals
           Demo.world "/tmp/tmpa1b2c3d4.onnx" ["e5f6g7h8"] Edge.failing
           {[ "input" := np_array2 [1; 1]%float ]}).
  - reflexivity.
  - reflexivity.
  - reflexivity.
  - reflexivity.
  - simpl. set_solver.
Defined.

(** X19.  When the uploaded bytes are not a model that the runtime parses,
    [run_inference] returns the failure pair with the runtime's message for
    the temporary file, the runtime's [run] is not called, and the handler
    has removed the file: the disk is as before.  (The file must be one that
    the operating system lets go.) *)
Theorem invalid_model_reported_and_cleaned
    env model_bytes volume impeller_speed l w p rest :
  first_free (files w) ".onnx" (tmp_names w) = Some (p, rest) →
  ort_parse env model_bytes = None →
  p ∉ undeletable w →
  ∃ w',
    App.run_inference env model_bytes volume impeller_speed (l, w)
      = ((l, w'), inr (Failed (ort_load_error env p model_bytes))) ∧
    files w' = files w ∧
    ort_calls w' = ort_calls w.
Proof.
  intros Htmp Hparse Hdel.
  unfold App.run_inference, App.run_inference_try. run_M.
  unfold NamedTemporaryFile_write, InferenceSession. run_M.
  rewrite Htmp. simpl. rewrite lookup_insert_eq, Hparse. simpl.
  rewrite run_inference_except_spec. eexists. split; [done|].
  unfold cleaned. simpl. rewrite lookup_insert_eq.
  rewrite decide_True by (split; [by eexists|done]). simpl. split; [|done].
  rewrite delete_insert_eq. apply delete_id. by eapply first_free_fresh.
Qed.

Lemma invalid_model_reported_and_cleaned_witness :
  ∃ w',
    App.run_inference Demo.env [Byte.x3c; Byte.x21] 1 1 (no_locals, Demo.world)
      = ((no_locals, w'),
         inr (Failed "[ONNXRuntimeError] : 7 : INVALID_PROTOBUF : Load model from /tmp/tmpa1b2c3d4.onnx failed:Protobuf parsing failed.")) ∧
    files w' = files Demo.world ∧
    ort_calls w' = [].
Proof.
  apply (invalid_model_reported_and_cleaned Demo.env [Byte.x3c; Byte.x21] 1 1 no_locals
           Demo.world "/tmp/tmpa1b2c3d4.onnx" ["e5f6g7h8"]).
  - reflexivity.
  - reflexivity.
  - simpl. set_solver.
Defined.
